(** * Job state, checkpoint reconstruction and remote synchronisation of automacs

    A shallow embedding of the state-handling commands of [amx/cli.py]
    ([serial_number], [upload], [download], [cluster]'s header substitution,
    [hardstart]) and of the module-level state loading of
    [runner/loadstate.py], with the properties the specification states about
    them. *)

From Stdlib Require Import ZArith List String Ascii Bool Lia DecimalString Sorted.
From stdpp Require Import base option list strings gmap fin_maps.

Set Warnings "-register-all".

Local Open Scope string_scope.
Local Open Scope Z_scope.
Local Open Scope list_scope.

(** ** JSON values and Python objects *)

(** What [json.load] produces and [json.dumps] consumes. *)
Inductive json : Type :=
  | JNull
  | JBool (b : bool)
  | JNum (z : Z)
  | JStr (s : string)
  | JArr (xs : list json)
  | JObj (kvs : list (string * json)).

(** A list object lives in the object store and is named by its position
    there: two dictionaries can hold the same list, and [append] through one
    of them is seen through the other. *)
Definition loc := nat.

(** The values held at the top level of a state dictionary.  Lists are
    references; everything else is used by value in the code below. *)
Inductive pyval : Type :=
  | PNone
  | PBool (b : bool)
  | PNum (z : Z)
  | PStr (s : string)
  | PDict (kvs : list (string * json))
  | PList (l : loc).

(** The text of a file, up to what [json.load] makes of it. *)
Inductive file_content : Type :=
  | Unparseable (raw : string)            (* json.load raises ValueError *)
  | JsonValue (j : json)                  (* valid JSON, top level not an object *)
  | JsonObject (d : gmap string json).    (* valid JSON, top level an object *)

Inductive exn : Type :=
  | KeyError (k : string)
  | TypeError
  | AttributeError
  | IndexError
  | ValueError
  | NoActiveException                     (* a bare [raise] outside a handler *)
  | IsADirectoryError
  | Error (msg : string).                 (* [raise Exception(msg)] *)

(** How a command ends: it returns, an exception escapes it, or it calls
    [sys.exit]. *)
Inductive outcome (A : Type) : Type :=
  | Returns (a : A)
  | Raises (e : exn)
  | Exits (code : Z).
Arguments Returns {A} a.
Arguments Raises {A} e.
Arguments Exits {A} code.

(** ** The process state seen by the commands *)

Record world : Type := World {
  state : gmap string pyval;          (* amx.state *)
  objs : list (list json);            (* the list objects *)
  state_json : option file_content;   (* the regular file ./state.json, if any *)
  writes : nat;                       (* calls of statesave so far *)
  traces : list exn;                  (* tracebacks printed so far *)
}.

Definition set_state (st : gmap string pyval) (w : world) : world :=
  World st (objs w) (state_json w) (writes w) (traces w).
Definition set_objs (h : list (list json)) (w : world) : world :=
  World (state w) h (state_json w) (writes w) (traces w).
Definition set_state_json (f : option file_content) (w : world) : world :=
  World (state w) (objs w) f (writes w) (traces w).
Definition add_trace (e : exn) (w : world) : world :=
  World (state w) (objs w) (state_json w) (writes w) (traces w ++ [e]).

(** A command threads the state it works on ([world] here, the directory tree
    for [hardstart]) and may stop early. *)
Definition cmd (W A : Type) : Type := W → outcome A * W.

#[global] Instance cmd_ret {W} : MRet (cmd W) := λ A a w, (Returns a, w).
#[global] Instance cmd_bind {W} : MBind (cmd W) := λ A B k m w,
  match m w with
  | (Returns a, w') => k a w'
  | (Raises e, w') => (Raises e, w')
  | (Exits c, w') => (Exits c, w')
  end.
Definition raise {W A} (e : exn) : cmd W A := λ w, (Raises e, w).
Definition sys_exit {W A} (c : Z) : cmd W A := λ w, (Exits c, w).
Definition get_world {W} : cmd W W := λ w, (Returns w, w).
Definition modify {W} (f : W → W) : cmd W unit := λ w, (Returns tt, f w).

(** [try: body except Exception as e: handler e]; [SystemExit] is not an
    [Exception] and passes through. *)
Definition try_except {W A} (body : cmd W A) (handler : exn → cmd W A) : cmd W A :=
  λ w, match body w with
       | (Raises e, w') => handler e w'
       | r => r
       end.

Abbreviation M := (cmd world).

(** ** Serialisation *)

Definition deref (h : list (list json)) (l : loc) : list json :=
  default [] (h !! l).

Definition dump_value (h : list (list json)) (v : pyval) : json :=
  match v with
  | PNone => JNull
  | PBool b => JBool b
  | PNum z => JNum z
  | PStr s => JStr s
  | PDict kvs => JObj kvs
  | PList l => JArr (deref h l)
  end.

(** [json.dumps] of a dictionary whose lists live in [h]. *)
Definition dumps (h : list (list json)) (st : gmap string pyval) : gmap string json :=
  dump_value h <$> st.

(** A decoded value is a fresh object: an array becomes a new list in the
    store. *)
Definition load_value (j : json) (h : list (list json)) : pyval * list (list json) :=
  match j with
  | JNull => (PNone, h)
  | JBool b => (PBool b, h)
  | JNum z => (PNum z, h)
  | JStr s => (PStr s, h)
  | JObj kvs => (PDict kvs, h)
  | JArr xs => (PList (length h), h ++ [xs])
  end.

(** Modelled from the spec: the class [DotDict] of datapack is not among the
    sources.  The spec's state document is a JSON object whose fields are
    read by name; [DotDict( **d )] is taken as the dictionary of the decoded
    object [d], with attribute access to its keys. *)
Definition DotDict (d : gmap string json) (h : list (list json))
  : gmap string pyval * list (list json) :=
  map_fold (λ k j acc, let '(v, h') := load_value j acc.2 in (<[k:=v]> acc.1, h'))
           (∅, h) d.

(** Python truthiness, as used by [not serial]. *)
Definition truthy (h : list (list json)) (v : pyval) : bool :=
  match v with
  | PNone => false
  | PBool b => b
  | PNum z => negb (z =? 0)
  | PStr s => negb (String.eqb s "")
  | PDict kvs => match kvs with [] => false | _ => true end
  | PList l => match deref h l with [] => false | _ => true end
  end.

(** ** runner/loadstate.py: the module-level [state] *)

(** What the import of the module reads, makes and prints. *)
Record loader : Type := Loader {
  state_file : option file_content;   (* the regular file state.json, if any *)
  expt_file : option file_content;    (* the regular file expt.json, if any *)
  heap : list (list json);            (* the list objects *)
  printed : list string;              (* the lines printed so far *)
}.

Definition set_heap (h : list (list json)) (w : loader) : loader :=
  Loader (state_file w) (expt_file w) h (printed w).

Definition print_out (line : string) : cmd loader unit :=
  modify (λ w, Loader (state_file w) (expt_file w) (heap w) (printed w ++ [line])).

(** [json.load(open(fn))] of a file that is there: the decoded value, an
    object or something else, or the ValueError of the decoder. *)
Definition json_load {W} (f : file_content) : cmd W (json + gmap string json) :=
  match f with
  | Unparseable _ => raise ValueError
  | JsonValue j => mret (inl j)
  | JsonObject d => mret (inr d)
  end.

(** [DotDict( **x )]: only a mapping can be unpacked into keywords. *)
Definition new_DotDict (x : json + gmap string json) : cmd loader (gmap string pyval) :=
  match x with
  | inl _ => raise TypeError
  | inr d => λ w, let '(st, h) := DotDict d (heap w) in (Returns st, set_heap h w)
  end.

(** [try: body except: handler]: a bare [except] takes whatever ends the
    body, [SystemExit] too. *)
Definition try_bare {W A} (body handler : cmd W A) : cmd W A :=
  λ w, match body w with
       | (Returns a, w') => (Returns a, w')
       | (_, w') => handler w'
       end.

(** Lines 44-47. *)
Definition load_state : cmd loader (gmap string pyval) :=
  w ← get_world;
  match state_file w with
  | None => mret ∅                                   (* not os.path.isfile *)
  | Some f => try_bare (x ← json_load f; new_DotDict x) (mret ∅)
  end.

(** Lines 48-54: [settings] and [expt].  The helpers of [yamlb_special]
    (yamlb, catalog and delveset of datapack, get_path_to_module of acme) are
    not among the sources: [yamlb_special] is what it gives for the settings
    text, or the exception it ends with. *)
Definition load_expt (yamlb_special : json → exn + (json + gmap string json))
  : cmd loader (gmap string pyval * gmap string pyval) :=
  w ← get_world;
  match expt_file w with
  | None => mret (∅, ∅)                              (* not os.path.isfile *)
  | Some f =>
      expt ← (x ← json_load f; new_DotDict x);
      settings ← try_bare
        (w ← get_world;
         match expt !! "settings" with
         | None => raise AttributeError              (* expt.settings *)
         | Some text =>
             match yamlb_special (dump_value (heap w) text) with
             | inl x => raise x
             | inr unpacked => new_DotDict unpacked
             end
         end)
        (print_out "[WARNING] settings was broken, now blanked!" ;; mret ∅);
      mret (settings, expt)
  end.

(** Lines 44-54: the import leaves [state], [settings] and [expt]. *)
Definition loadstate_module (yamlb_special : json → exn + (json + gmap string json))
  : cmd loader (gmap string pyval * gmap string pyval * gmap string pyval) :=
  state ← load_state;
  se ← load_expt yamlb_special;
  mret (state, se.1, se.2).

(** The state the import leaves and the list objects it has made, as
    [load_state] returns them (Lemma [load_state_value]).  [disk] is the
    regular file state.json if there is one. *)
Definition loadstate_state (disk : option file_content) (h : list (list json))
  : gmap string pyval * list (list json) :=
  match disk with
  | None => (∅, h)                                   (* not os.path.isfile *)
  | Some (JsonObject d) => DotDict d h               (* try: DotDict( **json.load(..)) *)
  | Some (JsonValue _) => (∅, h)                     (* except: DotDict() *)
  | Some (Unparseable _) => (∅, h)                   (* except: DotDict() *)
  end.

(** ** runner/states.py *)

(** Modelled from the spec: [statesave] of runner/states.py is not among the
    sources.  The spec's StateStore.save "writes the complete document" to the
    backing file; the file then holds the serialised dictionary. *)
Definition statesave : M unit :=
  modify (λ w, World (state w) (objs w)
                     (Some (JsonObject (dumps (objs w) (state w))))
                     (S (writes w)) (traces w)).

(** Modelled from the spec: [state_set_and_save] of runner/states.py is not
    among the sources; as its name and its uses say, it sets the keyword in
    the state and saves the state. *)
Definition state_set_and_save (k : string) (v : pyval) : M unit :=
  modify (λ w, set_state (<[k:=v]> (state w)) w) ;; statesave.

(** ** amx/cli.py: serial_number *)

(** What the commands take from outside: their arguments, the user, the
    transfer processes, the clock and the random generator, and the two
    things they ask of code that is not among the sources
    ([gmx_get_last_call] of amx/gromacs/gromacs_commands.py, which gives the
    last mdrun call or raises). *)
Record env : Type := Env {
  sure : bool;                        (* the [sure] argument *)
  bulk : bool;                        (* the [bulk] argument *)
  alias : string;
  path : string;
  cwd : string;                       (* basename of the working directory *)
  reply : string;                     (* the line typed at the prompt *)
  dry_status : Z;                     (* returncode of the [rsync -n] process *)
  real_status : Z;                    (* returncode of the real rsync process *)
  after_pull : option file_content;   (* ./state.json once the real pull has exited *)
  randint : Z;                        (* random.randint(0,10**9) *)
  timestamp : string;                 (* make_timestamp() *)
  last_mdrun : option (string * string);  (* flags -s and -cpo of the last mdrun *)
  isfile : string → bool;             (* os.path.isfile on the other paths *)
}.

(** Lines 182-199. *)
Definition serial_number (e : env) : M pyval :=
  w ← get_world;
  let serial := default PNone (state w !! "serial") in
  (if negb (truthy (objs w) serial)
   then state_set_and_save "serial" (PNum (randint e))
   else mret tt) ;;
  w ← get_world;
  match state w !! "serial" with
  | Some v => mret v
  | None => raise (KeyError "serial")
  end.

(** ** amx/cli.py: upload and download *)

(** [os.path.join a b] for a relative [b]. *)
Definition ends_with_slash (a : string) : bool :=
  match rev (list_ascii_of_string a) with
  | c :: _ => Ascii.eqb c "/"
  | [] => false
  end.

Definition path_join (a b : string) : string :=
  if String.eqb a "" then b
  else if ends_with_slash a then a +:+ b
  else a +:+ "/" +:+ b.

(** The value bound to a key of a decoded object; the last binding wins. *)
Fixpoint assoc_get (k : string) (kvs : list (string * json)) : option json :=
  match kvs with
  | [] => None
  | (k', v) :: rest =>
      match assoc_get k rest with
      | Some v' => Some v'
      | None => if String.eqb k k' then Some v else None
      end
  end.

(** [input(..)[:1] not in 'nN']: the empty reply is in ['nN'] as a substring,
    so only a reply that starts with something else than n or N confirms. *)
Definition reply_confirms (r : string) : bool :=
  match r with
  | EmptyString => false
  | String c _ => negb (Ascii.eqb c "n" || Ascii.eqb c "N")
  end.

Definition confirmed (e : env) : bool := sure e || reply_confirms (reply e).

(** A new list object. *)
Definition new_list (xs : list json) : M pyval :=
  λ w, (Returns (PList (length (objs w))), set_objs (objs w ++ [xs]) w).

(** [v.append(x)]: only lists have the method. *)
Definition append (v : pyval) (x : json) : M unit :=
  match v with
  | PList l => modify (λ w, set_objs (<[l := deref (objs w) l ++ [x]]> (objs w)) w)
  | _ => raise AttributeError
  end.

Definition deepcopy (v : pyval) : M pyval :=
  match v with
  | PList l => w ← get_world; new_list (deref (objs w) l)
  | _ => mret v
  end.

(** [amx.state.get(k,[])] *)
Definition state_get_or_new_list (k : string) : M pyval :=
  w ← get_world;
  match state w !! k with
  | Some v => mret v
  | None => new_list []
  end.

(** Lines 240-256: [p] is the dry run's process when [sure] is not set, and
    is bound again to the real transfer's when that one runs.  The process
    the command looks at in line 256 is therefore the real one when it ran,
    else the dry run (which did run, as [sure] is then not set). *)
Definition last_returncode (e : env) : Z :=
  if confirmed e then real_status e else dry_status e.

Definition upload_record (e : env) : list (string * json) :=
  [("to", JStr (alias e +:+ ":" +:+ path e +:+ "/" +:+ cwd e));
   ("when", JStr (timestamp e))].

(** Lines 221-225: the two files of the last mdrun, and the cluster scripts
    that are there. *)
Definition restart_fns (e : env) (last_step : string) (flags : string * string)
  : list string :=
  [last_step +:+ flags.1; last_step +:+ flags.2]
  ++ filter (λ fn, Is_true (isfile e fn))
            [path_join last_step "script-continue.sh";
             path_join last_step "cluster-continue.sh"].

(** The list the state holds as its upload history, empty when it holds
    none. *)
Definition held_history (w : world) : option (list json) :=
  match state w !! "upload_history" with
  | None => Some []
  | Some (PList l) => objs w !! l
  | Some _ => None
  end.

(** Lines 207-267.  The list uploads.txt and what is printed are left out;
    they do not touch the state. *)
Definition upload (e : env) : M unit :=
  serial_number e ;;
  w ← get_world;
  last_step ← match state w !! "here" with
              | None => raise (KeyError "here")
              | Some (PStr s) => mret s
              | Some _ => raise TypeError              (* last_step+i *)
              end;
  flags ← match last_mdrun e with
          | Some f => mret f
          | None => raise (Error "gmx_get_last_call")
          end;
  (if forallb (isfile e) (restart_fns e last_step flags) then mret tt
   else raise (Error "could not find necessary upload files from get_last_gmx_call")) ;;
  (* the dry run when not sure, the real transfer when confirmed *)
  let returncode := last_returncode e in
  if (returncode =? 0) && negb (String.eqb last_step "") then
    let this_upload := upload_record e in
    state_set_and_save "upload" (PDict this_upload) ;;
    upload_history ← state_get_or_new_list "upload_history";
    append upload_history (JObj this_upload) ;;
    state_set_and_save "upload_history" upload_history
  else if negb (returncode =? 0) then sys_exit 1     (* upload failure (not logged) *)
  else mret tt.

Definition pull_record (e : env) (destination : json) : json :=
  JObj [("from", destination); ("to", JStr "here"); ("when", JStr (timestamp e))].

(** Lines 299-304: the fetched document takes the held record and history
    where it has none of its own. *)
Definition merge_fetched (fetched : gmap string pyval) (held_upload held_history : pyval)
  : M (gmap string pyval) :=
  let st := match fetched !! "upload" with
            | None => <["upload" := held_upload]> fetched
            | Some _ => fetched
            end in
  match st !! "upload_history" with
  | None => mret (<["upload_history" := held_history]> st)
  | Some _ => raise (Error "development error. need to merge upload history here.")
  end.

(** Lines 296-307, with the file as the transfers left it. *)
Definition download_record (e : env) (held_upload held_history : pyval) (destination : json)
  : M unit :=
  w ← get_world;
  match state_json w with
  | None => mret tt                                    (* not os.path.isfile *)
  | Some f =>
      d ← match f with
          | JsonObject d => mret d
          | JsonValue _ => raise TypeError
          | Unparseable _ => raise ValueError
          end;
      fetched ← (λ w, let '(st, h) := DotDict d (objs w) in (Returns st, set_objs h w));
      st ← merge_fetched fetched held_upload held_history;
      append (default PNone (st !! "upload_history")) (pull_record e destination) ;;
      statesave                                        (* statesave(amx.state) *)
  end.

(** Lines 269-314, with [state_fn] at its default.  The handler prints the
    trace and the hint on the serial, then exits. *)
Definition download (e : env) : M unit :=
  w ← get_world;
  up ← match state w !! "upload" with
       | None => raise (Error "cannot find upload key in the state")
       | Some up => mret up
       end;
  held_upload ← deepcopy up;
  held_history ← state_get_or_new_list "upload_history";
  destination ← match up with
                | PDict kvs => match assoc_get "to" kvs with
                               | Some j => mret j
                               | None => raise (KeyError "to")
                               end
                | _ => raise TypeError
                end;
  serialno ← serial_number e;
  match serialno with
  | PNum _ | PBool _ => mret tt
  | _ => raise TypeError                               (* "%d"%serialno *)
  end ;;
  try_except
    ((if negb (sure e) && negb (dry_status e =? 0) then raise NoActiveException
      else mret tt) ;;
     (if confirmed e then modify (set_state_json (after_pull e)) else mret tt) ;;
     download_record e held_upload held_history destination)
    (λ x, modify (add_trace x) ;; sys_exit 1).

(** ** amx/cli.py: cluster, the substitutions into the header *)

Definition upper_ascii (c : ascii) : ascii :=
  let n := nat_of_ascii c in
  if ((97 <=? n) && (n <=? 122))%nat then ascii_of_nat (n - 32) else c.

(** [key.upper()] on ASCII text. *)
Fixpoint upper (s : string) : string :=
  match s with
  | EmptyString => EmptyString
  | String c s' => String (upper_ascii c) (upper s')
  end.

Inductive tokval : Type :=
  | TInt (z : Z)
  | TStr (s : string).

(** [str(val)] *)
Definition str (v : tokval) : string :=
  match v with
  | TInt z => NilZero.string_of_int (Z.to_int z)
  | TStr s => s
  end.

(** The characters that stand for themselves in a pattern; a key made of
    them is matched literally, which is the case [re_sub] below covers. *)
Definition word_char (c : ascii) : bool :=
  let n := nat_of_ascii c in
  ((48 <=? n) && (n <=? 57) || (65 <=? n) && (n <=? 90)
   || (97 <=? n) && (n <=? 122) || (n =? 95))%nat.

Fixpoint plain (s : string) : bool :=
  match s with
  | EmptyString => true
  | String c s' => word_char c && plain s'
  end.

(** A replacement text without backslash is inserted as it is. *)
Fixpoint no_backslash (s : string) : bool :=
  match s with
  | EmptyString => true
  | String c s' => negb (Ascii.eqb c "\") && no_backslash s'
  end.

(** The scan of [re.sub] for a literal pattern: matches are taken leftmost
    first and do not overlap.  [left] is the number of replacements still
    allowed ([None]: no limit); [skip] counts the characters of the match
    just replaced that are still to be passed over. *)
Fixpoint sub_scan (pat repl : string) (left : option nat) (skip : nat) (s : string)
  : string :=
  match s with
  | EmptyString =>
      match pat, left with
      | EmptyString, Some O => EmptyString
      | EmptyString, _ => repl
      | _, _ => EmptyString
      end
  | String c s' =>
      match skip with
      | S k => sub_scan pat repl left k s'
      | O =>
          match left with
          | Some O => s
          | _ =>
              if String.prefix pat s then
                let left' := match left with Some n => Some (Nat.pred n) | None => None end in
                match pat with
                | EmptyString => repl +:+ String c (sub_scan pat repl left' 0 s')
                | String _ p' => repl +:+ sub_scan pat repl left' (String.length p') s'
                end
              else String c (sub_scan pat repl left 0 s')
          end
      end
  end.

(** [re.sub(pattern,repl,string,count)]; a count of zero means no limit. *)
Definition re_sub (pattern repl s : string) (count : nat) : string :=
  sub_scan pattern repl (match count with O => None | _ => Some count end) 0 s.

(** The value of [re.M], which line 412 passes where [re.sub] takes its count. *)
Definition re_M : nat := 8.

(** Line 356: [for key,val in machine_configuration.items(): ...], the items
    in the order of the dictionary. *)
Definition header_pass (machine_configuration : list (string * tokval)) (head : string)
  : string :=
  fold_left (λ head kv, re_sub (upper kv.1) (str kv.2) head 0) machine_configuration head.

(** Line 412: [for key,val in settings.items(): ...] *)
Definition settings_pass (settings : list (string * tokval)) (head : string) : string :=
  fold_left (λ head kv, re_sub (upper kv.1) (str kv.2) head re_M) settings head.

(** A match of [pat] starts at none of the first [n] positions of [s]. *)
Fixpoint no_match_in (pat : string) (n : nat) (s : string) : bool :=
  match n, s with
  | O, _ => true
  | S n', String _ s' => negb (String.prefix pat s) && no_match_in pat n' s'
  | S _, EmptyString => negb (String.prefix pat s)
  end.

(** Replacing a key, said without the scan: [t] is [s] with the occurrences
    of [pat] replaced by [repl], the occurrences taken from the left and not
    overlapping.  Either [pat] does not occur in [s]; or [s] is a text [a],
    the leftmost occurrence and a rest [b], and the rest is treated
    likewise. *)
Inductive replaced (pat repl : string) : string → string → Prop :=
  | replaced_none (s : string) :
      no_match_in pat (String.length s) s = true → replaced pat repl s s
  | replaced_next (a b t : string) :
      no_match_in pat (String.length a) (a +:+ (pat +:+ b)) = true →
      replaced pat repl b t →
      replaced pat repl (a +:+ (pat +:+ b)) (a +:+ (repl +:+ t)).

(** And for a table: its keys are taken one after the other, in its order,
    each in upper case and with the text of its value. *)
Inductive rendered : list (string * tokval) → string → string → Prop :=
  | rendered_nil (s : string) : rendered [] s s
  | rendered_cons (k : string) (v : tokval) (rest : list (string * tokval))
      (s t u : string) :
      replaced (upper k) (str v) s t → rendered rest t u →
      rendered ((k, v) :: rest) s u.

(** ** amx/cli.py: hardstart *)

(** An entry of the working directory: a regular file with its text, or a
    directory with the names and modification times of what it holds. *)
Inductive node : Type :=
  | File (mtime : Z) (text : file_content)
  | Dir (mtime : Z) (entries : list (string * Z)).

(** The working directory, in the order the system lists it. *)
Definition tree : Type := list (string * node).

Definition node_mtime (x : node) : Z :=
  match x with File t _ => t | Dir t _ => t end.

Fixpoint lookup_node (name : string) (fs : tree) : option node :=
  match fs with
  | [] => None
  | (n, x) :: rest => if String.eqb name n then Some x else lookup_node name rest
  end.

Definition os_path_isfile (name : string) (fs : tree) : bool :=
  match lookup_node name fs with Some (File _ _) => true | _ => false end.

Definition os_path_isdir (name : string) (fs : tree) : bool :=
  match lookup_node name fs with Some (Dir _ _) => true | _ => false end.

(** [open(name,'w')] followed by [write]: a new file, or a new text for the
    file that is there; a directory cannot be opened. *)
Fixpoint write_file (name : string) (text : file_content) (now : Z) (fs : tree)
  : option tree :=
  match fs with
  | [] => Some [(name, File now text)]
  | (n, x) :: rest =>
      if String.eqb name n then
        match x with
        | File _ _ => Some ((n, File now text) :: rest)
        | Dir _ _ => None
        end
      else cons (n, x) <$> write_file name text now rest
  end.

Definition is_digit (c : ascii) : bool :=
  let n := nat_of_ascii c in ((48 <=? n) && (n <=? 57))%nat.

Fixpoint skip_digits (s : string) : string :=
  match s with
  | String c s' => if is_digit c then skip_digits s' else s
  | EmptyString => s
  end.

(** [re.match('s\d+-.+',fn)] *)
Definition step_pattern (fn : string) : bool :=
  match fn with
  | String "s" (String d rest) =>
      is_digit d &&
      match skip_digits rest with
      | String "-" (String c _) => negb (Ascii.eqb c "010")
      | _ => false
      end
  | _ => false
  end.

(** [re.match('md\.part\d{4}\.%s'%suf,name)] *)
Definition part_pattern (suf name : string) : bool :=
  String.prefix "md.part" name &&
  match String.substring 7 4 name with
  | String a (String b (String c (String d EmptyString))) =>
      is_digit a && is_digit b && is_digit c && is_digit d
  | _ => false
  end &&
  String.prefix ("." +:+ suf) (String.substring 11 (String.length name - 11) name).

Definition hidden (name : string) : bool := String.prefix "." name.

Definition ends_with (suffix name : string) : bool :=
  let n := String.length name in
  let k := String.length suffix in
  ((k <=? n)%nat && String.eqb (String.substring (n - k) k name) suffix).

(** [sorted(l,key=...)]: stable, ascending. *)
Fixpoint insert_sorted {A} (key : A → Z) (x : A) (l : list A) : list A :=
  match l with
  | [] => [x]
  | y :: l' => if key x <=? key y then x :: l else y :: insert_sorted key x l'
  end.

Definition sorted {A} (key : A → Z) (l : list A) : list A :=
  foldr (insert_sorted key) [] l.

(** The order the sorted list is in. *)
Definition earlier {A} (key : A → Z) (a b : A) : Prop := key a ≤ key b.

Definition step_entries (x : node) : list (string * Z) :=
  match x with Dir _ es => es | File _ _ => [] end.

(** The step folders, lines 576-577: the names [glob.glob('*')] gives that
    match the step pattern and are directories, by modification time. *)
Definition step_dirs (fs : tree) : list (string * node) :=
  sorted (λ d, node_mtime d.2)
    (filter (λ d, Is_true (negb (hidden d.1) && step_pattern d.1 && os_path_isdir d.1 fs)) fs).

(** Of the entries [glob] has to choose from, those it finds under
    ['*.suf'] and whose base name matches the part pattern, by modification
    time (lines 586-587). *)
Definition part_files (suf : string) (entries : list (string * Z)) : list (string * Z) :=
  sorted snd
    (filter (λ f, Is_true (negb (hidden f.1) && ends_with ("." +:+ suf) f.1
                           && part_pattern suf f.1)) entries).

(** Lines 576-578: the last of the step folders. *)
Definition current_step (fs : tree) : option (string * node) := last (step_dirs fs).

(** What [hardstart] takes from outside the directory tree; [gmx_get_paths]
    of amx/gromacs/calls.py is not among the sources, and [fnmatch] is the
    standard library's, which [glob] asks whether a name fits a pattern. *)
Record henv : Type := HEnv {
  gmx_get_paths : option json;        (* the tool paths, unless the resolver raises *)
  clock : Z;                          (* the time a written file is stamped with *)
  fnmatch : string → string → bool;   (* fnmatch.fnmatch(name,pattern) *)
}.

(** The characters that make a path a pattern for [glob]. *)
Definition magic_char (c : ascii) : bool :=
  Ascii.eqb c "*" || Ascii.eqb c "?" || Ascii.eqb c "[".

Fixpoint has_magic (s : string) : bool :=
  match s with
  | EmptyString => false
  | String c s' => magic_char c || has_magic s'
  end.

(** What is in the directory [name]; nothing when there is none to list. *)
Definition listdir (name : string) (fs : tree) : list (string * Z) :=
  match lookup_node name fs with
  | Some x => step_entries x
  | None => []
  end.

(** The directories [glob.glob] goes through for [name/*.suf] (line 586).
    A name without magic character stands for itself.  One with such a
    character is a pattern: it stands for the directories of the working
    directory that are not hidden and that fit it, in the order they are
    listed, whether or not the directory called [name] is among them. *)
Definition glob_dirs (e : henv) (name : string) (fs : tree) : list string :=
  if has_magic name
  then filter (λ dn, Is_true (negb (hidden dn) && os_path_isdir dn fs && fnmatch e dn name))
              fs.*1
  else [name].

(** The entries [glob.glob] has to choose from for [name/*.suf]. *)
Definition glob_entries (e : henv) (name : string) (fs : tree) : list (string * Z) :=
  flat_map (λ dn, listdir dn fs) (glob_dirs e name fs).

Definition synthetic_call (cpo s : string) : json :=
  JObj [("call", JStr "mdrun"); ("flags", JObj [("-cpo", JStr cpo); ("-s", JStr s)])].

Definition fresh_state (here : string) (gmxpaths : json) (cpo s : string)
  : gmap string json :=
  {[ "here" := JStr here; "gmxpaths" := gmxpaths;
     "history_gmx" := JArr [synthetic_call cpo s] ]}.

(** The last file of one kind, or the exception of line 588. *)
Definition last_part (suf here : string) (entries : list (string * Z)) : cmd tree string :=
  match last (part_files suf entries) with
  | Some f => mret f.1
  | None => raise (Error ("cannot find a " +:+ suf +:+ " file in " +:+ here))
  end.

Definition open_and_write (name : string) (text : file_content) (now : Z)
  : cmd tree unit :=
  λ fs, match write_file name text now fs with
        | Some fs' => (Returns tt, fs')
        | None => (Raises IsADirectoryError, fs)
        end.

(** Lines 569-590. *)
Definition hardstart (e : henv) : cmd tree unit :=
  fs ← get_world;
  (if os_path_isfile "state.json" fs
   then raise (Error "cannot hard restart if state.json is here") else mret tt) ;;
  d ← match current_step fs with
      | Some d => mret d
      | None => raise IndexError                      (* dns[-1] *)
      end;
  let here := path_join d.1 "" in
  gmxpaths ← match gmx_get_paths e with
             | Some p => mret p
             | None => raise (Error "gmx_get_paths")
             end;
  cpo ← last_part "cpt" here (glob_entries e d.1 fs);
  s ← last_part "tpr" here (glob_entries e d.1 fs);
  open_and_write "state.json" (JsonObject (fresh_state here gmxpaths cpo s)) (clock e).

(** A step folder as [hardstart] looks for it. *)
Definition step_candidate (fs : tree) (d : string * node) : Prop :=
  d ∈ fs ∧ step_pattern d.1 = true ∧ os_path_isdir d.1 fs = true.

(** A continuation file of one kind in a step folder. *)
Definition part_candidate (suf : string) (entries : list (string * Z)) (f : string * Z)
  : Prop :=
  f ∈ entries ∧ ends_with ("." +:+ suf) f.1 = true ∧ part_pattern suf f.1 = true.

(** ** Sample jobs *)

Definition job7_record : list (string * json) :=
  [("to", JStr "host:/scratch/job7"); ("when", JStr "2024.01.01.1200")].

(** A job that was uploaded once. *)
Definition job7_state : gmap string pyval :=
  {[ "here" := PStr "s01-run/"; "serial" := PNum 7;
     "upload" := PDict job7_record; "upload_history" := PList 0%nat ]}.

Definition job7_world : world :=
  World job7_state [[JObj job7_record]]
        (Some (JsonObject (dumps [[JObj job7_record]] job7_state))) 0 [].

(** The remote copy of its state document, sent before the upload was
    recorded. *)
Definition job7_remote : gmap string json :=
  {[ "here" := JStr "s01-run/"; "serial" := JNum 7 ]}.

(** A job that was never uploaded, with and without a serial. *)
Definition new_job_world : world :=
  World {[ "here" := PStr "s01-run/"; "serial" := PNum 7 ]} []
        (Some (JsonObject {[ "here" := JStr "s01-run/"; "serial" := JNum 7 ]})) 0 [].

Definition unnumbered_world : world :=
  World {[ "here" := PStr "s01-run/" ]} []
        (Some (JsonObject {[ "here" := JStr "s01-run/" ]})) 0 [].

(** The same job as [job7_world] whose serial is the number zero. *)
Definition serial0_world : world :=
  World (<["serial" := PNum 0]> job7_state) [[JObj job7_record]]
        (Some (JsonObject (dumps [[JObj job7_record]] (<["serial" := PNum 0]> job7_state))))
        0 [].

(** A remote copy that carries a history of its own. *)
Definition job7_remote_logged : gmap string json :=
  <["upload_history" := JArr [JObj [("to", JStr "other:/data/job7");
                                     ("when", JStr "2023.12.24.1800")]]]> job7_remote.

(** A remote copy that has gone on to the next step and names an upload of
    its own, without a history. *)
Definition job7_remote_moved : gmap string json :=
  {[ "here" := JStr "s02-run/"; "serial" := JNum 7;
     "upload" := JObj [("to", JStr "other:/data/job7");
                       ("when", JStr "2023.12.24.1800")] ]}.

(** A call with [sure] set whose transfer process ends with [status] and
    leaves [remote] as the local state.json. *)
Definition sure_call (status : Z) (remote : gmap string json) : env :=
  {| sure := true; bulk := false; alias := "host"; path := "/scratch"; cwd := "job7";
     reply := ""; dry_status := 0; real_status := status;
     after_pull := Some (JsonObject remote);
     randint := 424242; timestamp := "2024.01.02.0900";
     last_mdrun := Some ("md.part0001.tpr", "md.part0001.cpt");
     isfile := λ _, true |}.

(** A call without [sure] that the user answers with [r]; the real transfer,
    if it runs, succeeds. *)
Definition asking_call (r : string) (dry : Z) : env :=
  {| sure := false; bulk := false; alias := "host"; path := "/scratch"; cwd := "job7";
     reply := r; dry_status := dry; real_status := 0;
     after_pull := Some (JsonObject job7_remote);
     randint := 424242; timestamp := "2024.01.02.0900";
     last_mdrun := Some ("md.part0001.tpr", "md.part0001.cpt");
     isfile := λ _, true |}.

(** The step folder of the specification's scenario. *)
Definition s003_tree : tree :=
  [("makefile", File 50 (Unparseable "all:"));
   ("s003-run", Dir 400 [("md.part0002.cpt", 100); ("md.part0003.cpt", 300);
                         ("md.part0003.tpr", 200); ("md.log", 310)]);
   ("s002-equil", Dir 90 [("md.part0001.cpt", 80)])].

(** A step folder with a checkpoint and no run file. *)
Definition no_tpr_tree : tree :=
  [("s003-run", Dir 400 [("md.part0003.cpt", 300); ("md.log", 310)])].


(** Two step folders of which the lower-numbered one was touched last. *)
Definition touched_tree : tree :=
  [("s01-a", Dir 200 [("md.part0001.cpt", 10); ("md.part0001.tpr", 5)]);
   ("s02-b", Dir 100 [("md.part0001.cpt", 20); ("md.part0001.tpr", 15)])].

Definition sample_paths : json :=
  JObj [("mdrun", JStr "gmx mdrun"); ("tpbconv", JStr "gmx convert-tpr")].

(** [fnmatch] on the names of the samples: the pattern [s02-a[b]] stands for
    the name [s02-ab] and for no other, and a name without magic character
    for itself. *)
Definition sample_fnmatch (name pattern : string) : bool :=
  if String.eqb pattern "s02-a[b]" then String.eqb name "s02-ab"
  else String.eqb name pattern.

Definition sample_henv : henv := HEnv (Some sample_paths) 500 sample_fnmatch.

(** A step folder whose name has a bracket, with a checkpoint and no run
    file, beside an older folder whose name fits that name read as a
    pattern. *)
Definition bracket_tree : tree :=
  [("s02-a[b]", Dir 200 [("md.part0001.cpt", 10)]);
   ("s02-ab", Dir 100 [("md.part0001.cpt", 20); ("md.part0001.tpr", 15)])].

(** The scenario's step folder under a name with a bracket. *)
Definition lone_bracket_tree : tree :=
  [("s02-a[b]", Dir 400 [("md.part0002.cpt", 100); ("md.part0003.cpt", 300);
                         ("md.part0003.tpr", 200); ("md.log", 310)])].

(** The sequence number a step name carries: the digits after the [s]. *)
Fixpoint digits_value (acc : N) (s : string) : N :=
  match s with
  | String c s' =>
      if is_digit c then digits_value (10 * acc + (N_of_ascii c - 48))%N s' else acc
  | EmptyString => acc
  end.

Definition step_number (name : string) : option N :=
  if step_pattern name
  then Some (digits_value 0 (String.substring 1 (String.length name - 1) name))
  else None.

(** ** What the transfer commands keep *)

(** A command keeps a relation between the world it starts in and the world
    it leaves, however it ends. *)
Definition respects (R : relation world) {A} (m : M A) : Prop := ∀ w, R w (m w).2.

(** The state agrees outside the keys [ks]. *)
Definition same_outside (ks : list string) (w w' : world) : Prop :=
  ∀ k, k ∉ ks → state w' !! k = state w !! k.

(** Every list object is still there and has only grown at its end. *)
Definition lists_grow (w w' : world) : Prop :=
  ∀ l xs, objs w !! l = Some xs → ∃ ys, objs w' !! l = Some (xs ++ ys).

(** The serial [v] stays where it is. *)
Definition serial_stays (v : pyval) (w w' : world) : Prop :=
  state w !! "serial" = Some v → state w' !! "serial" = Some v.

(** The history [download] holds on to and the world in which it does:
    the state's list, or a new empty one. *)
Definition held_ref (w : world) : pyval :=
  default (PList (length (objs w))) (state w !! "upload_history").

Definition holding (w : world) : world :=
  match state w !! "upload_history" with
  | Some _ => w
  | None => set_objs (objs w ++ [[]]) w
  end.

(** The file state.json as the transfers leave it. *)
Definition pulled (e : env) (w : world) : world :=
  if confirmed e then set_state_json (after_pull e) w else w.

(** ** amx/cli.py: cluster, the matches of a key *)

(** The number of matches the scan of [re.sub] finds for a literal pattern
    that is not empty. *)
Fixpoint occurrences (pat : string) (skip : nat) (s : string) : nat :=
  match s with
  | EmptyString => O
  | String c s' =>
      match skip with
      | S k => occurrences pat k s'
      | O => if String.prefix pat s
             then S (occurrences pat (String.length pat - 1) s')
             else occurrences pat 0 s'
      end
  end.

(** No key has more than [n] matches when its turn comes in the pass. *)
Fixpoint within_count (n : nat) (table : list (string * tokval)) (head : string) : bool :=
  match table with
  | [] => true
  | (k, v) :: rest =>
      (occurrences (upper k) 0 head <=? n)%nat
      && within_count n rest (re_sub (upper k) (str v) head 0)
  end.

(** ** amx/cli.py: cluster, the settings of the continuation script *)

(** A dictionary in the order of its items, as [.items()] gives them. *)
Fixpoint dict_get (k : string) (d : list (string * tokval)) : option tokval :=
  match d with
  | [] => None
  | (k', v) :: rest => if String.eqb k k' then Some v else dict_get k rest
  end.

(** [d[k] = v]: the key keeps its place if it is there and else comes last. *)
Fixpoint dict_set (k : string) (v : tokval) (d : list (string * tokval))
  : list (string * tokval) :=
  match d with
  | [] => [(k, v)]
  | (k', v') :: rest =>
      if String.eqb k k' then (k', v) :: rest else (k', v') :: dict_set k v rest
  end.

Fixpoint repeat_string (n : nat) (s : string) : string :=
  match n with
  | O => EmptyString
  | S n' => s +:+ repeat_string n' s
  end.

(** [a*b] on numbers and strings: a string times a number repeats the
    string, two strings do not multiply. *)
Definition py_mul (a b : tokval) : option tokval :=
  match a, b with
  | TInt x, TInt y => Some (TInt (x * y))
  | TStr s, TInt n | TInt n, TStr s => Some (TStr (repeat_string (Z.to_nat n) s))
  | TStr _, TStr _ => None
  end.

(** Line 365 and lines 379-394: the tool paths with the cluster's mdrun
    command, and the settings of the continuation script.  [maxhours] and
    [jobname] come from outside ([interpret_walltimes] and the working
    directory).  The lines for [modules] go to the header and not to the
    settings; of the values here only a number stops the loop of line 389,
    which cannot go over it. *)
Definition cluster_settings (machine_configuration gmxpaths : list (string * tokval))
    (maxhours : tokval) (jobname : string) : exn + list (string * tokval) :=
  let gmxpaths :=
    match dict_get "mdrun_command" machine_configuration with
    | Some c => dict_set "mdrun" c gmxpaths
    | None => gmxpaths
    end in
  match dict_get "tpbconv" gmxpaths with
  | None => inl (KeyError "tpbconv")
  | Some tpbconv =>
  match dict_get "mdrun" gmxpaths with
  | None => inl (KeyError "mdrun")
  | Some mdrun =>
  let settings := [("maxhours", maxhours); ("tpbconv", tpbconv); ("mdrun", mdrun);
                   ("jobname", TStr jobname)] in
  let nprocs :=
    match dict_get "nprocs" machine_configuration with
    | Some n => inr n
    | None =>
        match dict_get "ppn" machine_configuration with
        | None => inl (KeyError "ppn")
        | Some p =>
            match dict_get "nnodes" machine_configuration with
            | None => inl (KeyError "nnodes")
            | Some q => match py_mul p q with
                        | Some r => inr r
                        | None => inl TypeError
                        end
            end
        end
    end in
  match nprocs with
  | inl x => inl x
  | inr n =>
      let settings := dict_set "nprocs" n settings in
      match dict_get "modules" machine_configuration with
      | Some (TInt _) => inl TypeError
      | _ =>
          let settings :=
            fold_left (λ st key, match dict_get key machine_configuration with
                                 | Some v => dict_set key v st
                                 | None => st
                                 end) ["extend"; "until"] settings in
          let settings :=
            match dict_get "until" machine_configuration with
            | Some _ => dict_set "mode" (TStr "until") settings
            | None => settings
            end in
          inr settings
      end
  end end end.

(** ** ortho/__init__.py: the environment probe *)

(** Truthiness of a decoded value. *)
Definition json_truthy (j : json) : bool :=
  match j with
  | JNull => false
  | JBool b => b
  | JNum z => negb (z =? 0)
  | JStr s => negb (String.eqb s "")
  | JArr xs => match xs with [] => false | _ => true end
  | JObj kvs => match kvs with [] => false | _ => true end
  end.

(** [v != os.environ.get(k,None)]: a variable of the environment is a string
    or is not set. *)
Definition differs (environ : string → option string) (kv : string * json) : bool :=
  match kv.2, environ kv.1 with
  | JStr s, Some s' => negb (String.eqb s s')
  | JNull, None => false
  | _, _ => true
  end.

Definition print_line (line : string) : cmd (list string) unit :=
  modify (λ out, out ++ [line]).

(** The loop of lines 98-100 over the items of [ready_check]. *)
Fixpoint probe_loop (environ : string → option string) (outgoing : string)
    (items : list (string * json)) : cmd (list string) unit :=
  match items with
  | [] => mret tt
  | kv :: rest =>
      (if differs environ kv then print_line outgoing else mret tt) ;;
      probe_loop environ outgoing rest
  end.

(** Lines 90-102.  The world is what has been printed; [percent_s] is the
    text [%s] gives for a value; [config] is the file config.json.  The
    items of a decoded object are those of its [JObj], whose keys differ
    from one another. *)
Definition env_probe (percent_s : json → string) (environ : string → option string)
    (config : option file_content) : cmd (list string) unit :=
  match environ "ENV_PROBE" with
  | None | Some EmptyString => mret tt
  | Some _ =>
      conf ← match config with
             | None => sys_exit 0                               (* sys.exit() *)
             | Some (Unparseable _) => raise ValueError
             | Some (JsonValue _) => raise AttributeError       (* conf.get *)
             | Some (JsonObject conf) => mret conf
             end;
      let env_cmd := default (JStr "") (conf !! "activate_env") in
      let outgoing := "environment: " +:+ percent_s env_cmd in
      let ready_check := default (JObj []) (conf !! "env_ready") in
      (if json_truthy env_cmd && negb (json_truthy ready_check) then print_line outgoing
       else if json_truthy env_cmd && json_truthy ready_check then
         match ready_check with
         | JObj items => probe_loop environ outgoing items
         | _ => raise AttributeError                            (* .items() *)
         end
       else mret tt) ;;
      sys_exit 0
  end.

(** ** More samples *)

(** A job whose state names an upload and holds no history. *)
Definition unlogged_world : world :=
  World {[ "here" := PStr "s01-run/"; "serial" := PNum 7; "upload" := PDict job7_record ]}
        [] None 0 [].

(** A pull that brings a state.json that is not JSON. *)
Definition garbled_call : env :=
  {| sure := true; bulk := false; alias := "host"; path := "/scratch"; cwd := "job7";
     reply := ""; dry_status := 0; real_status := 0;
     after_pull := Some (Unparseable "{here: ");
     randint := 424242; timestamp := "2024.01.02.0900";
     last_mdrun := Some ("md.part0001.tpr", "md.part0001.cpt");
     isfile := λ _, true |}.

(** A call for which the checkpoint of the last mdrun is not there. *)
Definition missing_cpt_call : env :=
  {| sure := true; bulk := false; alias := "host"; path := "/scratch"; cwd := "job7";
     reply := ""; dry_status := 0; real_status := 0;
     after_pull := None;
     randint := 424242; timestamp := "2024.01.02.0900";
     last_mdrun := Some ("md.part0001.tpr", "md.part0001.cpt");
     isfile := λ fn, negb (String.eqb fn "s01-run/md.part0001.cpt") |}.

(** A directory in which state.json is itself a directory. *)
Definition blocked_tree : tree := s003_tree ++ [("state.json", Dir 450 [])].

(** Two step folders with the same modification time, as after a copy. *)
Definition copied_tree : tree :=
  [("s02-b", Dir 100 [("md.part0001.cpt", 20); ("md.part0001.tpr", 15)]);
   ("s01-a", Dir 100 [("md.part0001.cpt", 10); ("md.part0001.tpr", 5)])].

(** A probed environment and a configuration that asks for two variables. *)
Definition sample_percent_s (j : json) : string :=
  match j with JStr s => s | _ => "" end.

Definition sample_environ (k : string) : option string :=
  if String.eqb k "ENV_PROBE" then Some "1"
  else if String.eqb k "CONDA_PREFIX" then Some "/opt/conda"
  else None.

Definition sample_conf : gmap string json :=
  {[ "activate_env" := JStr "source env/bin/activate";
     "env_ready" := JObj [("CONDA_PREFIX", JStr "/opt/conda"); ("GMXRC", JStr "/opt/gmx");
                          ("VIRTUAL_ENV", JStr "env")] ]}.

(** * Properties *)

(** ** Running commands *)

Lemma run_bind {W A B} (m : cmd W A) (k : A → cmd W B) (w : W) :
  (m ≫= k) w = match m w with
               | (Returns a, w') => k a w'
               | (Raises x, w') => (Raises x, w')
               | (Exits c, w') => (Exits c, w')
               end.
Proof. reflexivity. Qed.

Lemma run_ret {W A} (a : A) (w : W) : (mret a : cmd W A) w = (Returns a, w).
Proof. reflexivity. Qed.

(** ** serial_number *)

(** [serial_number] always returns; it leaves the world alone when the state
    holds a truthy serial and else draws one and saves. *)
Lemma serial_number_run (e : env) (w : world) :
  serial_number e w =
    if truthy (objs w) (default PNone (state w !! "serial"))
    then (Returns (default PNone (state w !! "serial")), w)
    else (Returns (PNum (randint e)),
          World (<["serial" := PNum (randint e)]> (state w)) (objs w)
                (Some (JsonObject (dumps (objs w) (<["serial" := PNum (randint e)]> (state w)))))
                (S (writes w)) (traces w)).
Proof.
  unfold serial_number. rewrite run_bind. cbn [get_world].
  destruct (truthy (objs w) (default PNone (state w !! "serial"))) eqn:Ht; cbn [negb].
  - rewrite run_bind, run_ret, run_bind. cbn [get_world].
    destruct (state w !! "serial") as [v|] eqn:Hs; [reflexivity|].
    cbn in Ht. discriminate.
  - rewrite run_bind. unfold state_set_and_save, statesave.
    rewrite run_bind. cbn [modify]. rewrite run_bind. cbn [get_world state set_state objs writes traces].
    rewrite lookup_insert_eq. reflexivity.
Qed.

Lemma serial_number_world (e : env) (w : world) :
  let w1 := (serial_number e w).2 in
  objs w1 = objs w ∧ traces w1 = traces w ∧
  (∀ k, k ≠ "serial" → state w1 !! k = state w !! k) ∧
  ∃ v, (serial_number e w).1 = Returns v.
Proof.
  rewrite serial_number_run.
  destruct (truthy _ _); cbn; repeat split; eauto.
  intros k Hk. by rewrite lookup_insert_ne.
Qed.

(** ** upload *)

Lemma restart_fns_all (e : env) (here : string) (flags : string * string) :
  forallb (isfile e) (restart_fns e here flags)
  = isfile e (here +:+ flags.1) && isfile e (here +:+ flags.2).
Proof.
  unfold restart_fns. rewrite forallb_app. cbn [forallb].
  assert (Hall : forallb (isfile e)
            (filter (λ fn, Is_true (isfile e fn))
               [path_join here "script-continue.sh"; path_join here "cluster-continue.sh"]) = true).
  { apply forallb_forall. intros fn Hin. apply list_elem_of_In, list_elem_of_filter in Hin.
    destruct Hin as [Hin _]. by apply Is_true_true. }
  rewrite Hall. by rewrite !andb_true_r.
Qed.

(** One step of a command applied to a world. *)
Ltac step :=
  first [rewrite run_ret | rewrite run_bind];
  cbn [get_world modify raise sys_exit
       state set_state set_objs objs writes traces state_json fst snd].

(** C1, as amended.  When the process [upload] last ran (the real transfer
    when confirmed, else the dry run) exits nonzero, the command ends with
    exit status 1 or with an exception, in the world [serial_number] left:
    the upload record, the upload history and every list object are as
    before.  When the confirmed transfer exits zero, the step path is not
    empty and the files of the last mdrun are there, the command returns
    with the new record under [upload], the same record appended once to
    the history, two saves more than [serial_number] made, and state.json
    holding the whole document. *)
Theorem upload_records_after_zero_exit (e : env) (w : world) :
  (last_returncode e ≠ 0 →
     ∃ o, upload e w = (o, (serial_number e w).2) ∧
          (o = Exits 1 ∨ ∃ x, o = Raises x) ∧
          state (upload e w).2 !! "upload" = state w !! "upload" ∧
          state (upload e w).2 !! "upload_history" = state w !! "upload_history" ∧
          objs (upload e w).2 = objs w ∧
          ∀ k, k ≠ "serial" → state (upload e w).2 !! k = state w !! k) ∧
  (∀ here flags old,
     confirmed e = true → real_status e = 0 →
     state w !! "here" = Some (PStr here) → here ≠ "" →
     last_mdrun e = Some flags →
     isfile e (here +:+ flags.1) = true → isfile e (here +:+ flags.2) = true →
     held_history w = Some old →
     ∃ w' l, upload e w = (Returns tt, w') ∧
        state w' !! "upload" = Some (PDict (upload_record e)) ∧
        state w' !! "upload_history" = Some (PList l) ∧
        objs w' !! l = Some (old ++ [JObj (upload_record e)]) ∧
        writes w' = (writes (serial_number e w).2 + 2)%nat ∧
        state_json w' = Some (JsonObject (dumps (objs w') (state w')))).
Proof.
  destruct (serial_number_world e w) as (Hobjs & Htr & Hkeys & v & Hv).
  destruct (serial_number e w) as [o1 w1] eqn:Hs. cbn in Hobjs, Htr, Hkeys, Hv. subst o1.
  split.
  - intros Hrc.
    assert (Hfields : state w1 !! "upload" = state w !! "upload" ∧
                      state w1 !! "upload_history" = state w !! "upload_history" ∧
                      objs w1 = objs w) by (repeat split; auto).
    assert (Hgoal : ∃ o, upload e w = (o, w1) ∧ (o = Exits 1 ∨ ∃ x, o = Raises x)).
    { apply Z.eqb_neq in Hrc.
      unfold upload. repeat step. rewrite Hs. repeat step.
      destruct (state w1 !! "here") as [[| | |s| |]|]; repeat step; eauto 6.
      destruct (last_mdrun e) as [flags|]; repeat step; eauto 6.
      destruct (forallb _ _); repeat step; eauto 6.
      rewrite Hrc. cbn [andb negb]. eauto. }
    destruct Hgoal as (o & Hup & Ho). exists o. rewrite Hup. cbn. tauto.
  - intros here flags old Hc Hz Hhere Hne Hfl Hf1 Hf2 Hold.
    unfold upload. repeat step. rewrite Hs. repeat step.
    rewrite (Hkeys "here") by done. rewrite Hhere. repeat step. rewrite Hfl. repeat step.
    rewrite restart_fns_all, Hf1, Hf2. cbn [andb]. repeat step.
    unfold last_returncode. rewrite Hc, Hz. cbn [Z.eqb andb].
    assert (Hnb : String.eqb here "" = false) by (by apply String.eqb_neq).
    rewrite Hnb. cbn [negb].
    unfold state_set_and_save, statesave, state_get_or_new_list.
    repeat (step; cbn [state set_state objs writes traces state_json]).
    rewrite lookup_insert_ne by done.
    unfold held_history in Hold. rewrite <- (Hkeys "upload_history") in Hold by done.
    rewrite <- Hobjs in Hold.
    destruct (state w1 !! "upload_history") as [[| | | | |l]|] eqn:Hh; try discriminate.
    + cbn. repeat (step; cbn [state set_state set_objs objs writes traces state_json]).
      eexists _, l. split; [reflexivity|]. cbn.
      rewrite lookup_insert_ne by done. rewrite lookup_insert_eq.
      rewrite lookup_insert_eq.
      assert (Hl : (l < length (objs w1))%nat) by (eapply lookup_lt_Some; eauto).
      rewrite list_lookup_insert_eq by done.
      unfold deref. rewrite Hold. cbn.
      repeat split; try done. lia.
    + cbn. unfold new_list.
      repeat (step; cbn [state set_state set_objs objs writes traces state_json]).
      eexists _, (length (objs w1)). split; [reflexivity|]. cbn.
      rewrite lookup_insert_ne by done. rewrite lookup_insert_eq.
      rewrite lookup_insert_eq.
      injection Hold as <-.
      rewrite list_lookup_insert_eq by (rewrite length_app; cbn; lia).
      unfold deref. rewrite lookup_app_r by lia. rewrite Nat.sub_diag. cbn.
      repeat split; try done. lia.
Qed.

(** ** download *)

Lemma DotDict_spec (d : gmap string json) (h : list (list json)) :
  (∀ k, (DotDict d h).1 !! k = None ↔ d !! k = None) ∧
  ∃ ext, (DotDict d h).2 = h ++ ext.
Proof.
  unfold DotDict.
  apply (map_fold_weak_ind
    (λ (r : gmap string pyval * list (list json)) (m : gmap string json),
       (∀ k, r.1 !! k = None ↔ m !! k = None) ∧ ∃ ext, r.2 = h ++ ext)).
  - split; [done|]. exists []. by rewrite app_nil_r.
  - intros i x m r Hi [Hdom [ext Hext]].
    destruct (load_value x r.2) as [v h'] eqn:Hl. cbn. split.
    + intros k. rewrite !lookup_insert. case_decide; [done|]. apply Hdom.
    + destruct x; cbn in Hl; injection Hl as <- <-; eauto.
      exists (ext ++ [xs]). by rewrite Hext, app_assoc.
Qed.

Lemma state_get_or_new_list_run (k : string) (w : world) :
  state_get_or_new_list k w =
    match state w !! k with
    | Some v => (Returns v, w)
    | None => (Returns (PList (length (objs w))), set_objs (objs w ++ [[]]) w)
    end.
Proof. unfold state_get_or_new_list. step. by destruct (state w !! k). Qed.

(** C3 fails on the code.  The uploaded job pulls a remote copy that has
    an upload record of its own, another step path and no history.  Lines
    298-306 put the held history into the decoded copy and leave its record
    alone, but line 307 saves the state held in memory: the command returns,
    and state.json has the held record and the held step path in the place of
    the fetched ones. *)
Theorem download_overwrites_fetched_record :
  job7_remote_moved !! "upload"
  = Some (JObj [("to", JStr "other:/data/job7"); ("when", JStr "2023.12.24.1800")]) ∧
  job7_remote_moved !! "here" = Some (JStr "s02-run/") ∧
  job7_remote_moved !! "upload_history" = None ∧
  ∃ w' d,
    download (sure_call 0 job7_remote_moved) job7_world = (Returns tt, w') ∧
    state_json w' = Some (JsonObject d) ∧
    d !! "upload" = Some (JObj job7_record) ∧
    d !! "here" = Some (JStr "s01-run/") ∧
    d !! "upload_history"
    = Some (JArr [JObj job7_record;
                  JObj [("from", JStr "host:/scratch/job7"); ("to", JStr "here");
                        ("when", JStr "2024.01.02.0900")]]).
Proof.
  split; [reflexivity|]. split; [reflexivity|]. split; [reflexivity|].
  eexists _, _. split; [vm_compute; reflexivity|]. cbn [state_json].
  split; [reflexivity|]. repeat split.
Qed.

(** The amended C1 at the uploaded job: a transfer that exits 1, and one that
    exits 0. *)
Lemma upload_records_after_zero_exit_witness :
  (∃ o, upload (sure_call 1 job7_remote) job7_world
        = (o, (serial_number (sure_call 1 job7_remote) job7_world).2) ∧
        (o = Exits 1 ∨ ∃ x, o = Raises x) ∧
        state (upload (sure_call 1 job7_remote) job7_world).2 !! "upload"
        = state job7_world !! "upload" ∧
        state (upload (sure_call 1 job7_remote) job7_world).2 !! "upload_history"
        = state job7_world !! "upload_history" ∧
        objs (upload (sure_call 1 job7_remote) job7_world).2 = objs job7_world ∧
        ∀ k, k ≠ "serial" →
             state (upload (sure_call 1 job7_remote) job7_world).2 !! k
             = state job7_world !! k) ∧
  ∃ w' l, upload (sure_call 0 job7_remote) job7_world = (Returns tt, w') ∧
     state w' !! "upload" = Some (PDict (upload_record (sure_call 0 job7_remote))) ∧
     state w' !! "upload_history" = Some (PList l) ∧
     objs w' !! l = Some ([JObj job7_record]
                          ++ [JObj (upload_record (sure_call 0 job7_remote))]) ∧
     writes w' = (writes (serial_number (sure_call 0 job7_remote) job7_world).2 + 2)%nat ∧
     state_json w' = Some (JsonObject (dumps (objs w') (state w'))).
Proof.
  split.
  - apply (proj1 (upload_records_after_zero_exit (sure_call 1 job7_remote) job7_world)).
    vm_compute. discriminate.
  - apply (proj2 (upload_records_after_zero_exit (sure_call 0 job7_remote) job7_world)
             "s01-run/" ("md.part0001.tpr", "md.part0001.cpt") [JObj job7_record]);
      [reflexivity | reflexivity | reflexivity | discriminate | reflexivity
      | reflexivity | reflexivity | reflexivity].
Defined.

(** C1 as stated fails.  A confirmed transfer that exits zero is followed by
    two saves, not one; and a transfer that exits nonzero on a job without
    serial leaves the state and state.json with the serial drawn before the
    transfer, not untouched. *)
Lemma upload_saves_twice_and_numbers_before_transfer :
  ((upload (sure_call 0 job7_remote) new_job_world).1 = Returns tt ∧
   writes new_job_world = 0%nat ∧
   writes (upload (sure_call 0 job7_remote) new_job_world).2 = 2%nat) ∧
  ((upload (sure_call 1 job7_remote) unnumbered_world).1 = Exits 1 ∧
   state unnumbered_world !! "serial" = None ∧
   state (upload (sure_call 1 job7_remote) unnumbered_world).2 !! "serial"
   = Some (PNum 424242) ∧
   state_json (upload (sure_call 1 job7_remote) unnumbered_world).2
   = Some (JsonObject {[ "here" := JStr "s01-run/"; "serial" := JNum 424242 ]}) ∧
   state_json unnumbered_world = Some (JsonObject {[ "here" := JStr "s01-run/" ]})).
Proof. vm_compute. repeat split. Qed.

(** When the user declines and the dry run had exited zero, the test of
    line 256 sees the dry run's process and the upload is recorded. *)
Remark upload_logs_declined_transfer :
  confirmed (asking_call "n" 0) = false ∧
  (upload (asking_call "n" 0) new_job_world).1 = Returns tt ∧
  state (upload (asking_call "n" 0) new_job_world).2 !! "upload"
  = Some (PDict (upload_record (asking_call "n" 0))).
Proof. vm_compute. repeat split. Qed.

(** C8 fails on the code.  A state whose serial is the number 0 (a value
    [random.randint(0,10**9)] can draw) counts as without serial for
    [not serial]: [serial_number], and with it [upload] and [download],
    replace it by a new draw. *)
Theorem serial_zero_is_drawn_again :
  state serial0_world !! "serial" = Some (PNum 0) ∧
  (serial_number (sure_call 0 job7_remote) serial0_world).1 = Returns (PNum 424242) ∧
  state (upload (sure_call 0 job7_remote) serial0_world).2 !! "serial"
  = Some (PNum 424242) ∧
  state (download (sure_call 0 job7_remote) serial0_world).2 !! "serial"
  = Some (PNum 424242).
Proof. vm_compute. repeat split. Qed.

(** C2 fails on the code.  With [sure] set and a real transfer that exits 23
    after it brought the remote state.json, [download] returns normally,
    saves once, and state.json holds the old history followed by a record of
    the pull. *)
Theorem download_logs_failed_pull :
  real_status (sure_call 23 job7_remote) = 23 ∧
  (download (sure_call 23 job7_remote) job7_world).1 = Returns tt ∧
  writes (download (sure_call 23 job7_remote) job7_world).2 = 1%nat ∧
  ∃ d, state_json (download (sure_call 23 job7_remote) job7_world).2
       = Some (JsonObject d) ∧
       d !! "upload_history"
       = Some (JArr [JObj job7_record;
                     pull_record (sure_call 23 job7_remote) (JStr "host:/scratch/job7")]).
Proof.
  split; [reflexivity|]. split; [by vm_compute|]. split; [by vm_compute|].
  eexists. split; [vm_compute; reflexivity|]. by vm_compute.
Qed.

(** ** Loading the state *)

(** The loading of lines 44-47 always returns; what it returns and the list
    objects it leaves are those of [loadstate_state], and it prints
    nothing. *)
Lemma load_state_value (w : loader) :
  load_state w
  = (Returns (loadstate_state (state_file w) (heap w)).1,
     set_heap (loadstate_state (state_file w) (heap w)).2 w).
Proof.
  unfold load_state. rewrite run_bind. cbn [get_world].
  destruct w as [[[raw|j|d]|] ex h out]; cbn [state_file heap loadstate_state];
    try reflexivity.
  unfold try_bare. rewrite run_bind. cbn [json_load]. rewrite run_ret.
  cbn [new_DotDict heap]. by destruct (DotDict d h).
Qed.

(** C10.  With a state.json that is there and does not parse, the decoder
    raises inside the [try] of line 46 and the bare [except] of line 47
    answers with the empty state: the loading returns, it returns the empty
    state, and it leaves the file, the list objects and what has been
    printed as they were, the same as with no state.json; so does a file
    that parses to something else than an object. *)
Theorem loadstate_malformed_like_absent
    (raw : string) (ex : option file_content) (h : list (list json)) (out : list string) :
  load_state (Loader (Some (Unparseable raw)) ex h out)
  = (Returns ∅, Loader (Some (Unparseable raw)) ex h out) ∧
  load_state (Loader None ex h out) = (Returns ∅, Loader None ex h out) ∧
  ∀ j, load_state (Loader (Some (JsonValue j)) ex h out)
       = (Returns ∅, Loader (Some (JsonValue j)) ex h out).
Proof. split; [|split]; [| |intros j]; by rewrite load_state_value. Qed.

(** The [try] of line 51 does not reach back to line 50: an expt.json that
    does not parse ends the import with the decoder's exception, while a
    settings text that cannot be read only brings the warning. *)
Remark loadstate_warns_about_settings_only
    (ys : json → exn + (json + gmap string json)) (w : loader) :
  (∀ raw, expt_file w = Some (Unparseable raw) →
          (loadstate_module ys w).1 = Raises ValueError) ∧
  (∀ d, expt_file w = Some (JsonObject d) → d !! "settings" = None →
        ∃ st expt w', loadstate_module ys w = (Returns (st, ∅, expt), w') ∧
                      printed w' = printed w ++ ["[WARNING] settings was broken, now blanked!"]).
Proof.
  unfold loadstate_module. split.
  - intros raw Hex. rewrite run_bind, load_state_value. unfold load_expt.
    rewrite !run_bind. cbn [get_world set_heap expt_file]. by rewrite Hex.
  - intros d Hex Hnone. rewrite run_bind, load_state_value. unfold load_expt.
    rewrite !run_bind. cbn [get_world set_heap expt_file]. rewrite Hex.
    rewrite !run_bind. cbn [json_load]. rewrite run_ret. cbn [new_DotDict heap].
    pose proof (DotDict_spec d (loadstate_state (state_file w) (heap w)).2) as [Hdom _].
    destruct (DotDict d _) as [expt h1]. cbn [fst] in Hdom.
    unfold try_bare. rewrite run_bind. cbn [get_world].
    rewrite (proj2 (Hdom "settings") Hnone). cbn [raise].
    eexists _, _, _. split; reflexivity.
Qed.

(** ** Sorting by modification time *)

Section Sorting.
Context {A : Type} (key : A → Z).

Lemma insert_sorted_elem (x y : A) (l : list A) :
  y ∈ insert_sorted key x l ↔ y = x ∨ y ∈ l.
Proof.
  induction l as [|z l IH]; cbn.
  - rewrite list_elem_of_singleton, elem_of_nil. tauto.
  - destruct (key x <=? key z); rewrite !elem_of_cons; [tauto|].
    rewrite IH. tauto.
Qed.

Lemma sorted_elem (y : A) (l : list A) : y ∈ sorted key l ↔ y ∈ l.
Proof.
  induction l as [|x l IH]; cbn; [done|].
  rewrite insert_sorted_elem, IH, elem_of_cons. tauto.
Qed.

Lemma insert_sorted_ordered (x : A) (l : list A) :
  StronglySorted (earlier key) l →
  StronglySorted (earlier key) (insert_sorted key x l).
Proof.
  induction 1 as [|z l Hs IH Hall]; cbn.
  - repeat constructor.
  - destruct (key x <=? key z) eqn:Hle.
    + apply Z.leb_le in Hle. constructor; [by constructor|].
      constructor; [done|].
      eapply Forall_impl; [exact Hall|]. intros b Hb. unfold earlier in *. lia.
    + apply Z.leb_gt in Hle. constructor; [done|].
      apply Forall_forall. intros b Hb. apply insert_sorted_elem in Hb.
      destruct Hb as [-> | Hb]; [unfold earlier; lia|].
      by eapply (proj1 (Forall_forall _ _) Hall).
Qed.

Lemma sorted_ordered (l : list A) : StronglySorted (earlier key) (sorted key l).
Proof.
  induction l; cbn; [constructor|]. by apply insert_sorted_ordered.
Qed.

Lemma last_of_ordered (l : list A) (m : A) :
  StronglySorted (earlier key) l → last l = Some m → ∀ y, y ∈ l → key y ≤ key m.
Proof.
  induction 1 as [|z l Hs IH Hall]; [done|].
  intros Hlast y Hy. destruct l as [|z' l'].
  - cbn in Hlast. injection Hlast as <-. apply list_elem_of_singleton in Hy. subst. lia.
  - change (last (z' :: l') = Some m) in Hlast.
    apply elem_of_cons in Hy as [-> | Hy]; [|by apply IH].
    assert (Hm : m ∈ z' :: l') by (by apply last_Some_elem_of).
    by eapply (proj1 (Forall_forall _ _) Hall).
Qed.

(** The last element of the sorted list is one of the list's and none has a
    later time. *)
Lemma last_sorted_latest (l : list A) (m : A) :
  last (sorted key l) = Some m → m ∈ l ∧ ∀ y, y ∈ l → key y ≤ key m.
Proof.
  intros Hlast. split.
  - apply sorted_elem. by apply last_Some_elem_of.
  - intros y Hy. eapply last_of_ordered; eauto using sorted_ordered.
    by apply sorted_elem.
Qed.

Lemma last_sorted_none (l : list A) : last (sorted key l) = None ↔ l = [].
Proof.
  rewrite last_None. split.
  - intros Hnil. destruct l as [|x l]; [done|].
    assert (Hx : x ∈ sorted key (x :: l)) by (apply sorted_elem; left).
    rewrite Hnil in Hx. by apply elem_of_nil in Hx.
  - by intros ->.
Qed.
(** Where the last element comes to stand when one more is sorted in. *)
Lemma last_insert_sorted (x : A) (l : list A) :
  StronglySorted (earlier key) l →
  last (insert_sorted key x l)
  = match last l with
    | None => Some x
    | Some m => if key m <? key x then Some x else Some m
    end.
Proof.
  induction 1 as [|y l Hs IH Hall]; [done|].
  cbn [insert_sorted]. destruct (key x <=? key y) eqn:Hle.
  - apply Z.leb_le in Hle. rewrite last_cons_cons.
    destruct (last (y :: l)) as [m|] eqn:Hm; [|by apply last_None in Hm].
    assert (Hym : key y ≤ key m).
    { rewrite last_cons in Hm. destruct (last l) as [m'|] eqn:Hm'.
      - injection Hm as <-. apply last_Some_elem_of in Hm'.
        by apply (proj1 (Forall_forall _ _) Hall).
      - injection Hm as <-. lia. }
    assert (Hlt : (key m <? key x) = false) by (apply Z.ltb_ge; lia).
    by rewrite Hlt.
  - apply Z.leb_gt in Hle. rewrite last_cons, IH, last_cons.
    destruct (last l) as [m|]; [by destruct (key m <? key x)|].
    assert (Hlt : (key y <? key x) = true) by (apply Z.ltb_lt; lia).
    by rewrite Hlt.
Qed.

(** The sort is stable: the last element of the sorted list is, of the
    elements with the latest time, the one that stands last in the list. *)
Lemma last_sorted_stable (l : list A) (m : A) :
  last (sorted key l) = Some m →
  ∃ pre post, l = pre ++ m :: post ∧
    Forall (λ x, key x ≤ key m) pre ∧ Forall (λ x, key x < key m) post.
Proof.
  revert m. induction l as [|x l IH]; intros m; [done|].
  cbn [sorted foldr]. fold (sorted key l).
  rewrite last_insert_sorted by apply sorted_ordered.
  destruct (last (sorted key l)) as [m'|] eqn:Hm'.
  - destruct (IH m' eq_refl) as (pre & post & -> & Hpre & Hpost).
    destruct (key m' <? key x) eqn:Hlt; intros [= <-].
    + apply Z.ltb_lt in Hlt. exists [], (pre ++ m' :: post).
      split; [done|]. split; [constructor|].
      apply Forall_app. split; [|constructor].
      * eapply Forall_impl; [exact Hpre|]. intros; cbn in *; lia.
      * lia.
      * eapply Forall_impl; [exact Hpost|]. intros; cbn in *; lia.
    + apply Z.ltb_ge in Hlt. exists (x :: pre), post.
      split; [done|]. split; [|done]. by constructor.
  - apply last_sorted_none in Hm' as ->. intros [= <-].
    exists [], []. by repeat constructor.
Qed.
End Sorting.

(** ** hardstart *)

Lemma step_pattern_not_hidden (name : string) : step_pattern name = true → hidden name = false.
Proof.
  destruct name as [|c name]; [done|]. cbn.
  destruct c as [[] [] [] [] [] [] [] []]; try done.
Qed.

Lemma part_pattern_not_hidden (suf name : string) :
  part_pattern suf name = true → hidden name = false.
Proof.
  unfold part_pattern. intros H. apply andb_prop in H as [H _]. apply andb_prop in H as [H _].
  destruct name as [|c name]; [done|]. cbn in *.
  destruct c as [[] [] [] [] [] [] [] []]; try done.
Qed.

Lemma step_dirs_elem (fs : tree) (d : string * node) :
  d ∈ step_dirs fs ↔ step_candidate fs d.
Proof.
  unfold step_dirs, step_candidate. rewrite sorted_elem, list_elem_of_filter.
  split.
  - intros [H Hd]. apply Is_true_true in H.
    apply andb_prop in H as [H H3]. apply andb_prop in H as [H1 H2]. done.
  - intros (Hd & H2 & H3). split; [|done]. apply Is_true_true.
    by rewrite (step_pattern_not_hidden _ H2), H2, H3.
Qed.

Lemma part_files_elem (suf : string) (entries : list (string * Z)) (f : string * Z) :
  f ∈ part_files suf entries ↔ part_candidate suf entries f.
Proof.
  unfold part_files, part_candidate. rewrite sorted_elem, list_elem_of_filter.
  split.
  - intros [H Hd]. apply Is_true_true in H.
    apply andb_prop in H as [H H3]. apply andb_prop in H as [H1 H2]. done.
  - intros (Hd & H2 & H3). split; [|done]. apply Is_true_true.
    by rewrite (part_pattern_not_hidden _ _ H3), H2, H3.
Qed.

Lemma current_step_latest (fs : tree) (d : string * node) :
  current_step fs = Some d →
  step_candidate fs d ∧ ∀ d', step_candidate fs d' → node_mtime d'.2 ≤ node_mtime d.2.
Proof.
  intros Hd. split.
  - apply step_dirs_elem. by apply last_Some_elem_of.
  - intros d' Hd'. apply step_dirs_elem in Hd'.
    unfold current_step, step_dirs in *.
    apply (last_sorted_latest (λ d, node_mtime d.2)) in Hd as [_ Hmax].
    apply Hmax. by apply sorted_elem in Hd'.
Qed.

Lemma current_step_none (fs : tree) :
  current_step fs = None ↔ ∀ d, ¬ step_candidate fs d.
Proof.
  unfold current_step. rewrite last_None. split.
  - intros Hnil d Hd. apply step_dirs_elem in Hd. rewrite Hnil in Hd.
    by apply elem_of_nil in Hd.
  - intros Hno. destruct (step_dirs fs) as [|d l] eqn:Hl; [done|].
    destruct (Hno d). apply step_dirs_elem. rewrite Hl. left.
Qed.

Lemma last_part_files (suf : string) (entries : list (string * Z)) :
  match last (part_files suf entries) with
  | Some f => part_candidate suf entries f ∧
              ∀ f', part_candidate suf entries f' → f'.2 ≤ f.2
  | None => ∀ f, ¬ part_candidate suf entries f
  end.
Proof.
  destruct (last (part_files suf entries)) as [f|] eqn:Hl.
  - split.
    + apply part_files_elem. by apply last_Some_elem_of.
    + intros f' Hf'. apply part_files_elem in Hf'. unfold part_files in *.
      apply (last_sorted_latest snd) in Hl as [_ Hmax].
      apply Hmax. by apply sorted_elem in Hf'.
  - intros f Hf. apply part_files_elem in Hf. apply last_None in Hl.
    rewrite Hl in Hf. by apply elem_of_nil in Hf.
Qed.

Lemma write_file_new (name : string) (text : file_content) (now : Z) (fs : tree) :
  lookup_node name fs = None →
  write_file name text now fs = Some (fs ++ [(name, File now text)]).
Proof.
  induction fs as [|[n x] fs IH]; cbn; [done|].
  destruct (String.eqb name n); [done|]. intros H. by rewrite IH.
Qed.

(** The command, one decision after the other. *)
Lemma hardstart_run (e : henv) (fs : tree) :
  hardstart e fs =
    if os_path_isfile "state.json" fs
    then (Raises (Error "cannot hard restart if state.json is here"), fs)
    else match current_step fs with
    | None => (Raises IndexError, fs)
    | Some d =>
    match gmx_get_paths e with
    | None => (Raises (Error "gmx_get_paths"), fs)
    | Some paths =>
    match last (part_files "cpt" (glob_entries e d.1 fs)) with
    | None => (Raises (Error ("cannot find a cpt file in " +:+ path_join d.1 "")), fs)
    | Some cpo =>
    match last (part_files "tpr" (glob_entries e d.1 fs)) with
    | None => (Raises (Error ("cannot find a tpr file in " +:+ path_join d.1 "")), fs)
    | Some s =>
        open_and_write "state.json"
          (JsonObject (fresh_state (path_join d.1 "") paths cpo.1 s.1)) (clock e) fs
    end end end end.
Proof.
  unfold hardstart. repeat step.
  destruct (os_path_isfile "state.json" fs); repeat step; [done|].
  destruct (current_step fs) as [d|]; repeat step; [|done].
  destruct (gmx_get_paths e) as [paths|]; repeat step; [|done].
  unfold last_part.
  destruct (last (part_files "cpt" _)) as [cpo|]; repeat step; [|done].
  destruct (last (part_files "tpr" _)) as [s|]; repeat step; done.
Qed.

Lemma lookup_node_isfile (name : string) (fs : tree) :
  lookup_node name fs = None → os_path_isfile name fs = false.
Proof. unfold os_path_isfile. by intros ->. Qed.

(** A name without magic character is looked up as it is. *)
Lemma glob_entries_plain (e : henv) (name : string) (fs : tree) :
  has_magic name = false → glob_entries e name fs = listdir name fs.
Proof.
  intros Hm. unfold glob_entries, glob_dirs. rewrite Hm. cbn [flat_map].
  apply app_nil_r.
Qed.

(** The names [glob.glob('*')] leaves out are no step names. *)
Lemma step_listing (fs : tree) :
  filter (λ d, Is_true (negb (hidden d.1) && step_pattern d.1 && os_path_isdir d.1 fs)) fs
  = filter (λ d, Is_true (step_pattern d.1 && os_path_isdir d.1 fs)) fs.
Proof.
  apply list_filter_iff. intros d.
  destruct (step_pattern d.1) eqn:Hs; [|by rewrite andb_false_r].
  by rewrite (step_pattern_not_hidden _ Hs).
Qed.

(** C5, as amended.  The entries whose names match the step pattern and that
    are directories are taken in the order of the listing; the current step
    is the one of them that no other was modified later than and that, among
    those modified at that same time, stands last: the entries before it are
    not later, the entries behind it are earlier.  There is one as soon as
    such an entry exists; with none (and no file state.json) [hardstart] ends
    with the IndexError of [dns[-1]] and writes nothing.  The sequence
    numbers play no part. *)
Theorem current_step_is_last_touched (e : henv) (fs : tree) :
  let listing := filter (λ d, Is_true (step_pattern d.1 && os_path_isdir d.1 fs)) fs in
  (∀ d, current_step fs = Some d →
        ∃ pre post, listing = pre ++ d :: post ∧
          Forall (λ x, node_mtime x.2 ≤ node_mtime d.2) pre ∧
          Forall (λ x, node_mtime x.2 < node_mtime d.2) post) ∧
  (listing ≠ [] → is_Some (current_step fs)) ∧
  (listing = [] → os_path_isfile "state.json" fs = false →
   hardstart e fs = (Raises IndexError, fs)).
Proof.
  cbn zeta. rewrite <- step_listing. split; [|split].
  - intros d Hd. unfold current_step, step_dirs in Hd.
    by apply (last_sorted_stable (λ d, node_mtime d.2)) in Hd.
  - intros Hne. apply not_eq_None_Some. unfold current_step, step_dirs.
    by rewrite last_sorted_none.
  - intros Hnil Hfile. rewrite hardstart_run, Hfile.
    unfold current_step, step_dirs. by rewrite Hnil.
Qed.

(** The amended C5 on two trees: one with two step folders, one with none. *)
Lemma current_step_is_last_touched_witness :
  (∃ pre post,
     touched_tree
     = pre ++ ("s01-a", Dir 200 [("md.part0001.cpt", 10); ("md.part0001.tpr", 5)]) :: post ∧
     Forall (λ x, node_mtime x.2 ≤ 200) pre ∧ Forall (λ x, node_mtime x.2 < 200) post) ∧
  hardstart sample_henv [("makefile", File 50 (Unparseable "all:"))]
  = (Raises IndexError, [("makefile", File 50 (Unparseable "all:"))]).
Proof.
  split.
  - apply (proj1 (current_step_is_last_touched sample_henv touched_tree)
             ("s01-a", Dir 200 [("md.part0001.cpt", 10); ("md.part0001.tpr", 5)])).
    reflexivity.
  - apply (proj2 (proj2 (current_step_is_last_touched sample_henv
                           [("makefile", File 50 (Unparseable "all:"))])));
      reflexivity.
Defined.

(** C5 as stated fails.  Of [s01-a] (touched last) and [s02-b] (higher
    number) the current step is [s01-a], and [hardstart] writes it as
    [here]. *)
Lemma current_step_ignores_sequence_numbers :
  current_step touched_tree
  = Some ("s01-a", Dir 200 [("md.part0001.cpt", 10); ("md.part0001.tpr", 5)]) ∧
  step_pattern "s02-b" = true ∧ os_path_isdir "s02-b" touched_tree = true ∧
  step_number "s01-a" = Some 1%N ∧ step_number "s02-b" = Some 2%N ∧
  hardstart sample_henv touched_tree
  = (Returns tt,
     touched_tree ++ [("state.json",
        File 500 (JsonObject (fresh_state "s01-a/" sample_paths
                                "md.part0001.cpt" "md.part0001.tpr")))]).
Proof. vm_compute. repeat split. Qed.

(** C6 fails on the code.  The current step is [s02-a[b]], which holds a
    checkpoint file and no run file.  Line 586 gives its name to [glob] as a
    pattern, the pattern fits the older folder [s02-ab], and the files are
    taken from there: [hardstart] returns and writes a state.json that names
    [s02-a[b]/] as the step and files that are not in it. *)
Theorem hardstart_reads_other_folder :
  current_step bracket_tree = Some ("s02-a[b]", Dir 200 [("md.part0001.cpt", 10)]) ∧
  part_candidate "cpt" (listdir "s02-a[b]" bracket_tree) ("md.part0001.cpt", 10) ∧
  (∀ t, ¬ part_candidate "tpr" (listdir "s02-a[b]" bracket_tree) t) ∧
  glob_dirs sample_henv "s02-a[b]" bracket_tree = ["s02-ab"] ∧
  hardstart sample_henv bracket_tree
  = (Returns tt,
     bracket_tree ++ [("state.json",
        File 500 (JsonObject
          {[ "here" := JStr "s02-a[b]/"; "gmxpaths" := sample_paths;
             "history_gmx" :=
               JArr [JObj [("call", JStr "mdrun");
                           ("flags", JObj [("-cpo", JStr "md.part0001.cpt");
                                           ("-s", JStr "md.part0001.tpr")])]] ]}))]).
Proof.
  split; [reflexivity|]. split.
  { split; [|split; reflexivity]. apply list_elem_of_In. cbn. tauto. }
  split.
  { intros t (Hin & H1 & H2). apply list_elem_of_In in Hin. cbn in Hin.
    destruct Hin as [<- | []]. discriminate. }
  split; [reflexivity|]. vm_compute. reflexivity.
Qed.

(** C7 fails on the code.  The only step folder is [s02-a[b]] and holds the
    scenario's files.  Its name, read as a pattern, fits no folder, itself
    included: [glob] finds nothing and [hardstart] raises the exception of
    line 588 for the checkpoint file in the place of recording
    [md.part0003.cpt]. *)
Theorem hardstart_misses_files_of_bracket_folder :
  current_step lone_bracket_tree
  = Some ("s02-a[b]", Dir 400 [("md.part0002.cpt", 100); ("md.part0003.cpt", 300);
                               ("md.part0003.tpr", 200); ("md.log", 310)]) ∧
  last (part_files "cpt" (listdir "s02-a[b]" lone_bracket_tree))
  = Some ("md.part0003.cpt", 300) ∧
  last (part_files "tpr" (listdir "s02-a[b]" lone_bracket_tree))
  = Some ("md.part0003.tpr", 200) ∧
  glob_dirs sample_henv "s02-a[b]" lone_bracket_tree = [] ∧
  hardstart sample_henv lone_bracket_tree
  = (Raises (Error "cannot find a cpt file in s02-a[b]/"), lone_bracket_tree).
Proof. repeat split. Qed.

Example hardstart_s003_scenario :
  hardstart sample_henv s003_tree
  = (Returns tt,
     s003_tree ++ [("state.json",
        File 500 (JsonObject (fresh_state "s003-run/" sample_paths
                                "md.part0003.cpt" "md.part0003.tpr")))]).
Proof. vm_compute. reflexivity. Qed.



(** ** Substitution into the header *)

Lemma prefix_append (p b : string) : String.prefix p (p +:+ b) = true.
Proof.
  induction p as [|c p IH].
  - destruct b; reflexivity.
  - change (String c p +:+ b) with (String c (p +:+ b)). cbn [String.prefix].
    destruct (ascii_dec c c); [done|congruence].
Qed.

Lemma sub_scan_skip (pat repl : string) (left : option nat) (x b : string) :
  sub_scan pat repl left (String.length x) (x +:+ b) = sub_scan pat repl left 0 b.
Proof.
  induction x as [|c x IH]; [done|].
  change (String c x +:+ b) with (String c (x +:+ b)). cbn [String.length sub_scan].
  apply IH.
Qed.

(** The leftmost occurrence is replaced whatever stands around it, and the
    scan goes on behind it. *)
Lemma sub_scan_first (pat repl a b : string) :
  pat ≠ "" →
  no_match_in pat (String.length a) (a +:+ (pat +:+ b)) = true →
  sub_scan pat repl None 0 (a +:+ (pat +:+ b))
  = a +:+ (repl +:+ sub_scan pat repl None 0 b).
Proof.
  intros Hpat. induction a as [|c a IH]; intros Hno.
  - destruct pat as [|p0 pat']; [done|].
    change ("" +:+ (String p0 pat' +:+ b)) with (String p0 (pat' +:+ b)).
    cbn [sub_scan].
    change (String p0 (pat' +:+ b)) with (String p0 pat' +:+ b) at 1.
    rewrite prefix_append. by rewrite sub_scan_skip.
  - cbn [String.length] in Hno.
    change (String c a +:+ (pat +:+ b)) with (String c (a +:+ (pat +:+ b))) in *.
    cbn [no_match_in] in Hno. apply andb_prop in Hno as [Hp Hno].
    apply negb_true_iff in Hp. cbn [sub_scan]. rewrite Hp.
    rewrite IH by done. done.
Qed.

(** Where the pattern does not occur the text stays as it is. *)
Lemma sub_scan_absent (pat repl s : string) :
  pat ≠ "" →
  no_match_in pat (String.length s) s = true →
  sub_scan pat repl None 0 s = s.
Proof.
  intros Hpat. induction s as [|c s IH]; intros Hno.
  - by destruct pat.
  - cbn [String.length no_match_in] in Hno. apply andb_prop in Hno as [Hp Hno].
    apply negb_true_iff in Hp. cbn [sub_scan]. rewrite Hp. by rewrite IH.
Qed.

Lemma re_sub_first (pat repl a b : string) :
  pat ≠ "" →
  no_match_in pat (String.length a) (a +:+ (pat +:+ b)) = true →
  re_sub pat repl (a +:+ (pat +:+ b)) 0 = a +:+ (repl +:+ re_sub pat repl b 0).
Proof. apply sub_scan_first. Qed.

Lemma upper_empty (k : string) : upper k = "" → k = "".
Proof. by destruct k. Qed.

Lemma sub_scan_no_occurrence (pat repl : string) (s : string) :
  pat ≠ "" → occurrences pat 0 s = O → sub_scan pat repl None 0 s = s.
Proof.
  intros Hpat. induction s as [|c s IH]; cbn [occurrences sub_scan].
  - by destruct pat.
  - destruct (String.prefix pat (String c s)); [done|]. intros H. by rewrite IH.
Qed.

(** A count that the matches do not exceed changes nothing. *)
Lemma sub_scan_enough (pat repl : string) (s : string) :
  pat ≠ "" →
  ∀ n skip, (occurrences pat skip s ≤ n)%nat →
            sub_scan pat repl (Some n) skip s = sub_scan pat repl None skip s.
Proof.
  intros Hpat. induction s as [|c s IH]; intros n skip Hn.
  - by destruct pat, n.
  - cbn [occurrences sub_scan] in *. destruct skip as [|k]; [|by apply IH].
    destruct n as [|n].
    + destruct (String.prefix pat (String c s)) eqn:Hp; [lia|].
      f_equal. symmetry. apply sub_scan_no_occurrence; [done|lia].
    + destruct (String.prefix pat (String c s)) eqn:Hp.
      * destruct pat as [|p0 p']; [done|]. cbn [Nat.pred]. f_equal.
        apply IH.
        replace (String.length (String p0 p') - 1)%nat with (String.length p') in Hn
          by (cbn [String.length]; lia).
        lia.
      * f_equal. by apply IH.
Qed.

Lemma string_length_app (a b : string) :
  String.length (a +:+ b) = (String.length a + String.length b)%nat.
Proof.
  induction a as [|c a IH]; [done|].
  change (String c a +:+ b) with (String c (a +:+ b)). cbn [String.length].
  by rewrite IH.
Qed.

Lemma prefix_split (p s : string) : String.prefix p s = true → ∃ b, s = p +:+ b.
Proof.
  revert s. induction p as [|c p IH]; intros s; [by exists s|].
  destruct s as [|c' s]; [done|]. cbn [String.prefix].
  destruct (ascii_dec c c') as [<-|]; [|done].
  intros Hp. destruct (IH _ Hp) as [b ->]. by exists b.
Qed.

(** A text in which the pattern occurs splits at its leftmost occurrence. *)
Lemma first_match (pat s : string) :
  no_match_in pat (String.length s) s = false →
  ∃ a b, s = a +:+ (pat +:+ b) ∧ no_match_in pat (String.length a) s = true.
Proof.
  induction s as [|c s IH]; [done|].
  cbn [String.length no_match_in].
  destruct (String.prefix pat (String c s)) eqn:Hp; cbn [negb andb].
  - intros _. destruct (prefix_split _ _ Hp) as [b Hb]. exists "", b. by rewrite Hb.
  - intros Hno. destruct (IH Hno) as (a & b & -> & Ha).
    exists (String c a), b. split; [done|].
    cbn [String.length no_match_in].
    change (String c a +:+ (pat +:+ b)) with (String c (a +:+ (pat +:+ b))).
    cbn [no_match_in]. by rewrite Hp.
Qed.

(** No occurrence starts before the one that is there. *)
Lemma no_match_before (pat a b : string) (n : nat) :
  pat ≠ "" →
  no_match_in pat n (a +:+ (pat +:+ b)) = true → (n ≤ String.length a)%nat.
Proof.
  intros Hpat. revert n. induction a as [|c a IH]; intros n.
  - destruct n as [|n]; [done|]. destruct pat as [|p0 pat]; [done|].
    change ("" +:+ (String p0 pat +:+ b)) with (String p0 (pat +:+ b)).
    cbn [no_match_in].
    change (String p0 (pat +:+ b)) with (String p0 pat +:+ b).
    by rewrite prefix_append.
  - destruct n as [|n]; [cbn; lia|].
    change (String c a +:+ (pat +:+ b)) with (String c (a +:+ (pat +:+ b))).
    cbn [no_match_in String.length]. intros H. apply andb_prop in H as [_ H].
    apply IH in H. lia.
Qed.

Lemma string_app_inj_length (a a' x y : string) :
  a +:+ x = a' +:+ y → String.length a = String.length a' → a = a' ∧ x = y.
Proof.
  revert a'. induction a as [|c a IH]; intros [|c' a']; try done.
  intros [= -> H] [= Hl]. destruct (IH _ H Hl) as [-> ->]. done.
Qed.

(** The scan of [re.sub] replaces the occurrences from the left. *)
Lemma replaced_sub_scan (pat repl s : string) :
  pat ≠ "" → replaced pat repl s (sub_scan pat repl None 0 s).
Proof.
  intros Hpat.
  assert (H : ∀ n s, (String.length s ≤ n)%nat →
                     replaced pat repl s (sub_scan pat repl None 0 s)).
  { clear s. induction n as [|n IH]; intros s Hn.
    - destruct s; [|cbn in Hn; lia]. destruct pat; [done|].
      by apply replaced_none.
    - destruct (no_match_in pat (String.length s) s) eqn:Hno.
      + rewrite sub_scan_absent by done. by apply replaced_none.
      + destruct (first_match _ _ Hno) as (a & b & -> & Ha).
        rewrite sub_scan_first by done. apply replaced_next; [done|].
        apply IH. rewrite !string_length_app in Hn.
        destruct pat; [done|]. cbn [String.length] in Hn. lia. }
  by apply (H (String.length s)).
Qed.

(** There is one such text only. *)
Lemma replaced_unique (pat repl s t t' : string) :
  pat ≠ "" → replaced pat repl s t → replaced pat repl s t' → t = t'.
Proof.
  intros Hpat H. revert t'. induction H as [s Hno|a b t Ha Hb IH]; intros t' H'.
  - inversion H' as [|a b t0 Ha Hb Heq]; [done|]. subst.
    apply no_match_before in Hno; [|done].
    rewrite !string_length_app in Hno. destruct pat; [done|].
    cbn [String.length] in Hno. lia.
  - inversion H' as [s Hno Heq|a' b' t0 Ha' Hb' Heq].
    + subst. apply no_match_before in Hno; [|done].
      rewrite !string_length_app in Hno. destruct pat; [done|].
      cbn [String.length] in Hno. lia.
    + subst. rewrite Heq in Ha'.
      pose proof (no_match_before _ _ _ _ Hpat Ha') as H1.
      rewrite <- Heq in Ha.
      pose proof (no_match_before _ _ _ _ Hpat Ha) as H2.
      destruct (string_app_inj_length _ _ _ _ Heq) as [-> Hrest]; [lia|].
      destruct (string_app_inj_length _ _ _ _ Hrest eq_refl) as [_ ->].
      by rewrite (IH _ Hb').
Qed.

(** C4, as amended.  For a table whose keys are made of letters, digits and
    underscores and are not empty, and whose values have no backslash in
    their text, the pass of line 356 gives the header in which, key after
    key in the order of the table, the occurrences of the key in upper case
    are replaced by the text of the value, from the left and without
    overlap, whatever stands before and behind them; and the pass of line
    412 gives the same text if no key has more than eight occurrences when
    its turn comes. *)
Theorem header_pass_replaces_substrings
    (table : list (string * tokval)) (head : string) :
  (∀ kv, kv ∈ table →
         plain kv.1 = true ∧ kv.1 ≠ "" ∧ no_backslash (str kv.2) = true) →
  (∀ u, rendered table head u ↔ u = header_pass table head) ∧
  (within_count 8 table head = true → settings_pass table head = header_pass table head).
Proof.
  revert head. induction table as [|[k v] table IH]; intros head Hall.
  - split; [|done]. intros u. split; [by inversion 1|intros ->; constructor].
  - destruct (Hall (k, v)) as (_ & Hk & _); [left|]. cbn [fst snd] in Hk.
    assert (Hu : upper k ≠ "") by (intros Hu; by apply upper_empty in Hu).
    assert (Hrest : ∀ kv, kv ∈ table →
              plain kv.1 = true ∧ kv.1 ≠ "" ∧ no_backslash (str kv.2) = true).
    { intros kv Hkv. apply Hall. by right. }
    destruct (IH (re_sub (upper k) (str v) head 0) Hrest) as [IH1 IH2].
    change (header_pass ((k, v) :: table) head)
      with (header_pass table (re_sub (upper k) (str v) head 0)).
    split.
    + intros u. split.
      * inversion 1 as [|k' v' rest' s t u' Hrep Hren]; subst.
        assert (Ht : re_sub (upper k) (str v) head 0 = t).
        { eapply replaced_unique; [exact Hu | by apply replaced_sub_scan | exact Hrep]. }
        apply IH1. by rewrite Ht.
      * intros ->. econstructor; [by apply replaced_sub_scan|]. by apply IH1.
    + cbn [within_count]. intros H. apply andb_prop in H as [Hn Hw].
      apply Nat.leb_le in Hn.
      change (settings_pass ((k, v) :: table) head)
        with (settings_pass table (re_sub (upper k) (str v) head re_M)).
      unfold re_sub at 1. cbn [re_M]. rewrite sub_scan_enough by done.
      by apply IH2.
Qed.

(** The amended C4 on the template [NPROCS=NPROCS_PLACEHOLDER]. *)
Lemma header_pass_replaces_substrings_witness :
  rendered [("nprocs", TInt 64)] "NPROCS=NPROCS_PLACEHOLDER" "64=64_PLACEHOLDER" ∧
  settings_pass [("nprocs", TInt 64)] "NPROCS=NPROCS_PLACEHOLDER" = "64=64_PLACEHOLDER".
Proof.
  assert (H : ∀ kv, kv ∈ [("nprocs", TInt 64)] →
                plain kv.1 = true ∧ kv.1 ≠ "" ∧ no_backslash (str kv.2) = true).
  { intros kv Hkv. apply list_elem_of_In in Hkv. cbn in Hkv.
    destruct Hkv as [<- | []]. split; [reflexivity|]. split; [discriminate|reflexivity]. }
  split.
  - apply (proj1 (header_pass_replaces_substrings [("nprocs", TInt 64)]
                    "NPROCS=NPROCS_PLACEHOLDER" H)).
    reflexivity.
  - apply (proj2 (header_pass_replaces_substrings [("nprocs", TInt 64)]
                    "NPROCS=NPROCS_PLACEHOLDER" H)).
    reflexivity.
Defined.

(** C4 as stated fails.  [NPROCS_PLACEHOLDER] does not stay intact in either
    pass; the keys are taken in the order of the table, not longest first;
    and the match is case-sensitive. *)
Lemma header_pass_rewrites_inside_longer_token :
  header_pass [("nprocs", TInt 64)] "NPROCS=NPROCS_PLACEHOLDER" = "64=64_PLACEHOLDER" ∧
  settings_pass [("nprocs", TInt 64)] "NPROCS=NPROCS_PLACEHOLDER" = "64=64_PLACEHOLDER" ∧
  header_pass [("procs", TInt 8); ("nprocs", TInt 64)] "#PBS -l procs=NPROCS"
  = "#PBS -l procs=N8" ∧
  header_pass [("nprocs", TInt 64)] "nprocs" = "nprocs".
Proof. repeat split. Qed.

(** The count that line 412 passes stops the substitution after eight
    occurrences of a key. *)
Remark settings_pass_stops_after_eight :
  settings_pass [("x", TStr "y")] "XXXXXXXXXX" = "yyyyyyyyXX" ∧
  header_pass [("x", TStr "y")] "XXXXXXXXXX" = "yyyyyyyyyy".
Proof. split; reflexivity. Qed.

(** * Further properties *)

(** ** What upload and download keep *)

Section Respects.
Context (R : relation world) `{!PreOrder R}.

Lemma respects_ret {A} (a : A) : respects R (mret a).
Proof. intros w. cbn. reflexivity. Qed.

Lemma respects_raise {A} (x : exn) : respects R (raise x : M A).
Proof. intros w. cbn. reflexivity. Qed.

Lemma respects_exit {A} (c : Z) : respects R (sys_exit c : M A).
Proof. intros w. cbn. reflexivity. Qed.

Lemma respects_get_world : respects R (get_world : M world).
Proof. intros w. cbn. reflexivity. Qed.

Lemma respects_modify (f : world → world) :
  (∀ w, R w (f w)) → respects R (modify f).
Proof. intros Hf w. apply Hf. Qed.

Lemma respects_bind {A B} (m : M A) (k : A → M B) :
  respects R m → (∀ a, respects R (k a)) → respects R (m ≫= k).
Proof.
  intros Hm Hk w. rewrite run_bind. specialize (Hm w).
  destruct (m w) as [[a|x|c] w']; cbn in *; [|done|done].
  etrans; [exact Hm|]. apply Hk.
Qed.

Lemma respects_try {A} (body : M A) (handler : exn → M A) :
  respects R body → (∀ x, respects R (handler x)) → respects R (try_except body handler).
Proof.
  intros Hb Hh w. unfold try_except. specialize (Hb w).
  destruct (body w) as [[a|x|c] w']; cbn in *; [done| |done].
  etrans; [exact Hb|]. apply Hh.
Qed.

Lemma respects_if {A} (b : bool) (m1 m2 : M A) :
  respects R m1 → respects R m2 → respects R (if b then m1 else m2).
Proof. by destruct b. Qed.
End Respects.

#[global] Instance same_outside_preorder (ks : list string) : PreOrder (same_outside ks).
Proof.
  split.
  - by intros w k Hk.
  - intros w1 w2 w3 H12 H23 k Hk. by rewrite H23, H12.
Qed.

#[global] Instance lists_grow_preorder : PreOrder lists_grow.
Proof.
  split.
  - intros w l xs Hl. exists []. by rewrite app_nil_r.
  - intros w1 w2 w3 H12 H23 l xs Hl.
    destruct (H12 l xs Hl) as [ys Hys]. destruct (H23 l _ Hys) as [zs Hzs].
    exists (ys ++ zs). by rewrite app_assoc.
Qed.

Section Frames.
Context (ks : list string).

Lemma statesave_outside : respects (same_outside ks) statesave.
Proof. by intros w k Hk. Qed.

Lemma state_set_and_save_outside (k : string) (v : pyval) :
  k ∈ ks → respects (same_outside ks) (state_set_and_save k v).
Proof.
  intros Hin w k' Hk'. unfold state_set_and_save, statesave. rewrite run_bind. cbn.
  rewrite lookup_insert_ne; [done|]. by intros ->.
Qed.

Lemma new_list_outside (xs : list json) : respects (same_outside ks) (new_list xs).
Proof. by intros w k Hk. Qed.

Lemma append_outside (v : pyval) (x : json) : respects (same_outside ks) (append v x).
Proof. destruct v; by intros w k Hk. Qed.

Lemma deepcopy_outside (v : pyval) : respects (same_outside ks) (deepcopy v).
Proof. destruct v; by intros w k Hk. Qed.

Lemma state_get_or_new_list_outside (k : string) :
  respects (same_outside ks) (state_get_or_new_list k).
Proof. intros w. rewrite state_get_or_new_list_run. by destruct (state w !! k). Qed.

Lemma serial_number_outside (e : env) :
  "serial" ∈ ks → respects (same_outside ks) (serial_number e).
Proof.
  intros Hin w k Hk. apply (serial_number_world e w). by intros ->.
Qed.

Lemma merge_fetched_outside (fetched : gmap string pyval) (hu hh : pyval) :
  respects (same_outside ks) (merge_fetched fetched hu hh).
Proof.
  intros w. unfold merge_fetched.
  destruct (_ !! "upload_history"); cbn; reflexivity.
Qed.
End Frames.

Lemma decode_outside (ks : list string) (d : gmap string json) :
  respects (same_outside ks)
    (λ w, let '(st, h) := DotDict d (objs w) in (Returns st, set_objs h w)).
Proof. intros w. destruct (DotDict d (objs w)). by intros k Hk. Qed.

Ltac in_keys := repeat first [apply list_elem_of_here | apply list_elem_of_further].

(** Walks through a command and settles each step on the state's keys. *)
Ltac frame :=
  repeat first
    [ match goal with |- PreOrder _ => apply _ end
    | apply respects_ret | apply respects_raise | apply respects_exit
    | apply respects_get_world
    | apply statesave_outside | apply new_list_outside | apply append_outside
    | apply deepcopy_outside | apply state_get_or_new_list_outside
    | apply merge_fetched_outside | apply decode_outside
    | apply serial_number_outside; in_keys
    | apply state_set_and_save_outside; in_keys
    | apply respects_modify; intros ? ? ?; reflexivity
    | apply respects_bind; [apply _| |intros ?]
    | apply respects_try; [apply _| |intros ?]
    | match goal with |- respects _ (match ?x with _ => _ end) => destruct x end ].

(** X1.  [upload] changes no key of the state but [serial], [upload] and
    [upload_history], however it ends. *)
Theorem upload_keeps_other_keys (e : env) (w : world) (k : string) :
  k ≠ "serial" → k ≠ "upload" → k ≠ "upload_history" →
  state (upload e w).2 !! k = state w !! k.
Proof.
  intros H1 H2 H3.
  assert (Hr : respects (same_outside ["serial"; "upload"; "upload_history"]) (upload e)).
  { unfold upload. frame. }
  apply Hr. rewrite !not_elem_of_cons. auto using not_elem_of_nil.
Qed.

(** X2.  [download] changes no key of the state in memory but [serial], however
    it ends. *)
Theorem download_keeps_state_keys (e : env) (w : world) (k : string) :
  k ≠ "serial" → state (download e w).2 !! k = state w !! k.
Proof.
  intros H1.
  assert (Hr : respects (same_outside ["serial"]) (download e)).
  { unfold download, download_record. frame. }
  apply Hr. rewrite !not_elem_of_cons. auto using not_elem_of_nil.
Qed.

Lemma lists_grow_objs (w w' : world) : objs w' = objs w → lists_grow w w'.
Proof. intros Ho l xs Hl. exists []. by rewrite Ho, app_nil_r. Qed.

Lemma lists_grow_app (w w' : world) (ext : list (list json)) :
  objs w' = objs w ++ ext → lists_grow w w'.
Proof.
  intros Ho l xs Hl. exists []. rewrite Ho, app_nil_r.
  by apply lookup_app_l_Some.
Qed.

Lemma statesave_grows : respects lists_grow statesave.
Proof. intros w. by apply lists_grow_objs. Qed.

Lemma state_set_and_save_grows (k : string) (v : pyval) :
  respects lists_grow (state_set_and_save k v).
Proof. intros w. by apply lists_grow_objs. Qed.

Lemma new_list_grows (xs : list json) : respects lists_grow (new_list xs).
Proof. intros w. by apply (lists_grow_app _ _ [xs]). Qed.

Lemma append_grows (v : pyval) (x : json) : respects lists_grow (append v x).
Proof.
  destruct v; try (intros w; by apply lists_grow_objs).
  intros w l' xs Hl. cbn [append modify snd objs set_objs].
  destruct (decide (l = l')) as [->|Hne].
  - exists [x]. rewrite list_lookup_insert_eq by (by eapply lookup_lt_Some).
    unfold deref, loc. by rewrite Hl.
  - exists []. by rewrite list_lookup_insert_ne, app_nil_r.
Qed.

Lemma deepcopy_grows (v : pyval) : respects lists_grow (deepcopy v).
Proof.
  destruct v; try (intros w; by apply lists_grow_objs).
  intros w. by apply (lists_grow_app _ _ [deref (objs w) l]).
Qed.

Lemma state_get_or_new_list_grows (k : string) :
  respects lists_grow (state_get_or_new_list k).
Proof.
  intros w. rewrite state_get_or_new_list_run. destruct (state w !! k).
  - by apply lists_grow_objs.
  - by apply (lists_grow_app _ _ [[]]).
Qed.

Lemma serial_number_grows (e : env) : respects lists_grow (serial_number e).
Proof. intros w. apply lists_grow_objs, (serial_number_world e w). Qed.

Lemma merge_fetched_grows (fetched : gmap string pyval) (hu hh : pyval) :
  respects lists_grow (merge_fetched fetched hu hh).
Proof.
  intros w. unfold merge_fetched.
  destruct (_ !! "upload_history"); cbn; reflexivity.
Qed.

Lemma decode_grows (d : gmap string json) :
  respects lists_grow
    (λ w, let '(st, h) := DotDict d (objs w) in (Returns st, set_objs h w)).
Proof.
  intros w. destruct (DotDict_spec d (objs w)) as [_ [ext Hext]].
  destruct (DotDict d (objs w)) as [st h]. by apply (lists_grow_app _ _ ext).
Qed.

(** Walks through a command and settles each step on the list objects. *)
Ltac grow :=
  repeat first
    [ match goal with |- PreOrder _ => apply _ end
    | apply respects_ret | apply respects_raise | apply respects_exit
    | apply respects_get_world
    | apply statesave_grows | apply new_list_grows | apply append_grows
    | apply deepcopy_grows | apply state_get_or_new_list_grows
    | apply merge_fetched_grows | apply decode_grows
    | apply serial_number_grows | apply state_set_and_save_grows
    | apply respects_modify; intros ?; by apply lists_grow_objs
    | apply respects_bind; [apply _| |intros ?]
    | apply respects_try; [apply _| |intros ?]
    | match goal with |- respects _ (match ?x with _ => _ end) => destruct x end ].

(** X3.  A list object that is there before [upload] or [download] is there
    afterwards, with its entries as they were and possibly more behind them. *)
Theorem transfers_only_append (e : env) (w : world) (l : loc) (xs : list json) :
  objs w !! l = Some xs →
  (∃ ys, objs (upload e w).2 !! l = Some (xs ++ ys)) ∧
  (∃ ys, objs (download e w).2 !! l = Some (xs ++ ys)).
Proof.
  intros Hl. split.
  - assert (Hr : respects lists_grow (upload e)) by (unfold upload; grow).
    by apply Hr.
  - assert (Hr : respects lists_grow (download e))
      by (unfold download, download_record; grow).
    by apply Hr.
Qed.

(** ** upload, run by run *)

(** Up to the test of line 256. *)
Lemma upload_prepared (e : env) (w : world) (here : string) (flags : string * string) :
  state w !! "here" = Some (PStr here) →
  last_mdrun e = Some flags →
  isfile e (here +:+ flags.1) = true → isfile e (here +:+ flags.2) = true →
  upload e w =
    (if (last_returncode e =? 0) && negb (String.eqb here "") then
       state_set_and_save "upload" (PDict (upload_record e)) ;;
       upload_history ← state_get_or_new_list "upload_history";
       append upload_history (JObj (upload_record e)) ;;
       state_set_and_save "upload_history" upload_history
     else if negb (last_returncode e =? 0) then sys_exit 1
     else mret tt) (serial_number e w).2.
Proof.
  intros Hhere Hfl Hf1 Hf2.
  destruct (serial_number_world e w) as (_ & _ & Hkeys & v & Hv).
  destruct (serial_number e w) as [o1 w1] eqn:Hs. cbn in Hkeys, Hv. subst o1.
  unfold upload. repeat step. rewrite Hs. repeat step.
  rewrite (Hkeys "here") by done. rewrite Hhere. repeat step. rewrite Hfl. repeat step.
  rewrite restart_fns_all, Hf1, Hf2. cbn [andb]. repeat step. done.
Qed.

(** The block of lines 257-264, by what the state holds as its history. *)
Lemma upload_log_run (e : env) (w : world) :
  (state_set_and_save "upload" (PDict (upload_record e)) ;;
   upload_history ← state_get_or_new_list "upload_history";
   append upload_history (JObj (upload_record e)) ;;
   state_set_and_save "upload_history" upload_history) w
  = let st1 := <["upload" := PDict (upload_record e)]> (state w) in
    match state w !! "upload_history" with
    | None =>
        let h := objs w ++ [[JObj (upload_record e)]] in
        let st2 := <["upload_history" := PList (length (objs w))]> st1 in
        (Returns tt, World st2 h (Some (JsonObject (dumps h st2)))
                           (S (S (writes w))) (traces w))
    | Some (PList l) =>
        let h := <[l := deref (objs w) l ++ [JObj (upload_record e)]]> (objs w) in
        let st2 := <["upload_history" := PList l]> st1 in
        (Returns tt, World st2 h (Some (JsonObject (dumps h st2)))
                           (S (S (writes w))) (traces w))
    | Some _ =>
        (Raises AttributeError,
         World st1 (objs w) (Some (JsonObject (dumps (objs w) st1)))
               (S (writes w)) (traces w))
    end.
Proof.
  unfold state_set_and_save, statesave. repeat step.
  rewrite state_get_or_new_list_run. cbn [state].
  rewrite lookup_insert_ne by done.
  destruct (state w !! "upload_history") as [[| | | | |l]|];
    cbn [append new_list set_objs objs state state_json writes traces];
    repeat step; try reflexivity.
  unfold deref. rewrite lookup_app_r by lia. rewrite Nat.sub_diag. cbn [lookup list_lookup default from_option id app].
  rewrite insert_app_r_alt by lia. rewrite Nat.sub_diag. reflexivity.
Qed.

(** X4.  When the user declines and the dry run had exited zero, [upload]
    records the upload all the same and saves it. *)
Theorem upload_logs_on_declined_dry_run
    (e : env) (w : world) (here : string) (flags : string * string) (old : list json) :
  confirmed e = false → dry_status e = 0 →
  state w !! "here" = Some (PStr here) → here ≠ "" →
  last_mdrun e = Some flags →
  isfile e (here +:+ flags.1) = true → isfile e (here +:+ flags.2) = true →
  held_history w = Some old →
  ∃ w' l, upload e w = (Returns tt, w') ∧
     state w' !! "upload" = Some (PDict (upload_record e)) ∧
     state w' !! "upload_history" = Some (PList l) ∧
     objs w' !! l = Some (old ++ [JObj (upload_record e)]) ∧
     state_json w' = Some (JsonObject (dumps (objs w') (state w'))).
Proof.
  intros Hc Hz Hhere Hne Hfl Hf1 Hf2 Hold.
  rewrite (upload_prepared e w here flags) by done.
  destruct (serial_number_world e w) as (Hobjs & _ & Hkeys & _).
  set (w1 := (serial_number e w).2) in *. cbn in Hobjs, Hkeys.
  unfold last_returncode. rewrite Hc, Hz. cbn [Z.eqb andb].
  apply String.eqb_neq in Hne. rewrite Hne. cbn [negb].
  rewrite upload_log_run. cbn zeta.
  unfold held_history in Hold.
  rewrite <- (Hkeys "upload_history"), <- Hobjs in Hold by done.
  destruct (state w1 !! "upload_history") as [[| | | | |l]|] eqn:Hh; try discriminate.
  - eexists _, l. split; [reflexivity|]. cbn [state objs state_json].
    rewrite lookup_insert_ne, !lookup_insert_eq by done.
    rewrite list_lookup_insert_eq by (by eapply lookup_lt_Some).
    unfold deref. rewrite Hold. done.
  - injection Hold as <-.
    eexists _, (length (objs w1)). split; [reflexivity|]. cbn [state objs state_json].
    rewrite lookup_insert_ne, !lookup_insert_eq by done.
    rewrite lookup_app_r by lia. rewrite Nat.sub_diag. done.
Qed.

(** X4 on a job never uploaded, the user answering n. *)
Lemma upload_logs_on_declined_dry_run_witness :
  ∃ w' l, upload (asking_call "n" 0) new_job_world = (Returns tt, w') ∧
     state w' !! "upload" = Some (PDict (upload_record (asking_call "n" 0))) ∧
     state w' !! "upload_history" = Some (PList l) ∧
     objs w' !! l = Some ([] ++ [JObj (upload_record (asking_call "n" 0))]) ∧
     state_json w' = Some (JsonObject (dumps (objs w') (state w'))).
Proof.
  apply (upload_logs_on_declined_dry_run (asking_call "n" 0) new_job_world
           "s01-run/" ("md.part0001.tpr", "md.part0001.cpt") []);
    [reflexivity | reflexivity | reflexivity | discriminate | reflexivity
    | reflexivity | reflexivity | reflexivity].
Defined.

(** X5.  In the document a logging upload saves, the upload record is the last
    entry of the history, behind the entries held before. *)
Theorem upload_saves_record_as_last_entry
    (e : env) (w : world) (here : string) (flags : string * string) (old : list json) :
  last_returncode e = 0 →
  state w !! "here" = Some (PStr here) → here ≠ "" →
  last_mdrun e = Some flags →
  isfile e (here +:+ flags.1) = true → isfile e (here +:+ flags.2) = true →
  held_history w = Some old →
  ∃ d, state_json (upload e w).2 = Some (JsonObject d) ∧
       d !! "upload" = Some (JObj (upload_record e)) ∧
       d !! "upload_history" = Some (JArr (old ++ [JObj (upload_record e)])).
Proof.
  intros Hz Hhere Hne Hfl Hf1 Hf2 Hold.
  rewrite (upload_prepared e w here flags) by done.
  destruct (serial_number_world e w) as (Hobjs & _ & Hkeys & _).
  set (w1 := (serial_number e w).2) in *. cbn in Hobjs, Hkeys.
  rewrite Hz. cbn [Z.eqb andb].
  apply String.eqb_neq in Hne. rewrite Hne. cbn [negb].
  rewrite upload_log_run. cbn zeta.
  unfold held_history in Hold.
  rewrite <- (Hkeys "upload_history"), <- Hobjs in Hold by done.
  destruct (state w1 !! "upload_history") as [[| | | | |l]|] eqn:Hh; try discriminate.
  - eexists. split; [reflexivity|]. unfold dumps.
    rewrite !lookup_fmap, lookup_insert_ne, !lookup_insert_eq by done. cbn.
    split; [done|]. unfold deref.
    rewrite list_lookup_insert_eq by (by eapply lookup_lt_Some).
    unfold deref. rewrite Hold. done.
  - injection Hold as <-.
    eexists. split; [reflexivity|]. unfold dumps.
    rewrite !lookup_fmap, lookup_insert_ne, !lookup_insert_eq by done. cbn.
    split; [done|]. unfold deref.
    rewrite lookup_app_r by lia. rewrite Nat.sub_diag. done.
Qed.

(** X5 on the uploaded job. *)
Lemma upload_saves_record_as_last_entry_witness :
  ∃ d, state_json (upload (sure_call 0 job7_remote) job7_world).2 = Some (JsonObject d) ∧
       d !! "upload" = Some (JObj (upload_record (sure_call 0 job7_remote))) ∧
       d !! "upload_history"
       = Some (JArr ([JObj job7_record] ++ [JObj (upload_record (sure_call 0 job7_remote))])).
Proof.
  apply (upload_saves_record_as_last_entry (sure_call 0 job7_remote) job7_world
           "s01-run/" ("md.part0001.tpr", "md.part0001.cpt") [JObj job7_record]);
    [reflexivity | reflexivity | discriminate | reflexivity
    | reflexivity | reflexivity | reflexivity].
Defined.

(** X6.  Without the step path in the state, or without one of the two files of
    the last mdrun, [upload] raises in the world [serial_number] left,
    whatever the transfer would have been. *)
Theorem upload_stops_on_missing_input (e : env) (w : world) :
  (state w !! "here" = None →
   upload e w = (Raises (KeyError "here"), (serial_number e w).2)) ∧
  (∀ here flags,
     state w !! "here" = Some (PStr here) → last_mdrun e = Some flags →
     isfile e (here +:+ flags.1) = false ∨ isfile e (here +:+ flags.2) = false →
     upload e w
     = (Raises (Error "could not find necessary upload files from get_last_gmx_call"),
        (serial_number e w).2)).
Proof.
  destruct (serial_number_world e w) as (_ & _ & Hkeys & v & Hv).
  destruct (serial_number e w) as [o1 w1] eqn:Hs. cbn in Hkeys, Hv. subst o1.
  split.
  - intros Hnone. unfold upload. repeat step. rewrite Hs. repeat step.
    rewrite (Hkeys "here") by done. rewrite Hnone. by repeat step.
  - intros here flags Hhere Hfl Hmiss. unfold upload. repeat step. rewrite Hs. repeat step.
    rewrite (Hkeys "here") by done. rewrite Hhere. repeat step. rewrite Hfl. repeat step.
    rewrite restart_fns_all.
    assert (Hb : isfile e (here +:+ flags.1) && isfile e (here +:+ flags.2) = false).
    { destruct Hmiss as [-> | ->]; [done|]. by rewrite andb_false_r. }
    rewrite Hb. by repeat step.
Qed.

(** ** download, run by run *)

(** Up to the try block's last part: the state names a destination and has a
    serial, and the dry run, if any, went through. *)
Lemma download_reaches_record
    (e : env) (w : world) (up : list (string * json)) (dest : json) (n : Z) :
  state w !! "upload" = Some (PDict up) → assoc_get "to" up = Some dest →
  state w !! "serial" = Some (PNum n) → n ≠ 0 →
  sure e = true ∨ dry_status e = 0 →
  download e w =
    match download_record e (PDict up) (held_ref w) dest (pulled e (holding w)) with
    | (Raises x, w') => (Exits 1, add_trace x w')
    | r => r
    end.
Proof.
  intros Hup Hto Hser Hn Hdry.
  unfold download. repeat step. rewrite Hup. repeat step. cbn [deepcopy]. repeat step.
  rewrite state_get_or_new_list_run.
  assert (Hrun : match state w !! "upload_history" with
                 | Some v => (Returns v, w)
                 | None => (Returns (PList (length (objs w))), set_objs (objs w ++ [[]]) w)
                 end = (Returns (held_ref w), holding w)).
  { unfold held_ref, holding. by destruct (state w !! "upload_history"). }
  rewrite Hrun. rewrite Hto. repeat step.
  assert (Hst : state (holding w) = state w).
  { unfold holding. by destruct (state w !! "upload_history"). }
  rewrite serial_number_run, Hst, Hser. cbn [default from_option truthy id].
  apply Z.eqb_neq in Hn. rewrite Hn. cbn [negb]. repeat step.
  unfold try_except.
  assert (Hcheck : negb (sure e) && negb (dry_status e =? 0) = false).
  { destruct Hdry as [-> | ->]; [done|]. by rewrite andb_false_r. }
  repeat step. rewrite Hcheck. repeat step.
  assert (Hmod : (if confirmed e then modify (set_state_json (after_pull e)) else mret ())
                   (holding w) = (Returns tt, pulled e (holding w))).
  { unfold pulled. by destruct (confirmed e). }
  rewrite Hmod.
  destruct (download_record _ _ _ _ _) as [[[]|x|c] w']; [done| |done].
  by repeat step.
Qed.

(** Lines 296-307 by what state.json holds. *)
Lemma download_record_run (e : env) (hu hh : pyval) (dest : json) (w : world) :
  download_record e hu hh dest w =
    match state_json w with
    | None => (Returns tt, w)
    | Some (Unparseable _) => (Raises ValueError, w)
    | Some (JsonValue _) => (Raises TypeError, w)
    | Some (JsonObject d) =>
        let w2 := set_objs (DotDict d (objs w)).2 w in
        match d !! "upload_history" with
        | Some _ =>
            (Raises (Error "development error. need to merge upload history here."), w2)
        | None =>
            match hh with
            | PList l =>
                let h := <[l := deref (objs w2) l ++ [pull_record e dest]]> (objs w2) in
                (Returns tt,
                 World (state w) h (Some (JsonObject (dumps h (state w))))
                       (S (writes w)) (traces w))
            | _ => (Raises AttributeError, w2)
            end
        end
    end.
Proof.
  unfold download_record. repeat step.
  destruct (state_json w) as [[raw|j|d]|]; repeat step; try done.
  destruct (DotDict_spec d (objs w)) as [Hdom _].
  destruct (DotDict d (objs w)) as [fetched h1] eqn:HD. cbn [fst snd] in *. repeat step.
  unfold merge_fetched.
  set (st := match fetched !! "upload" with
             | Some _ => fetched | None => <["upload" := hu]> fetched end).
  assert (Hst : st !! "upload_history" = None ↔ d !! "upload_history" = None).
  { rewrite <- Hdom. subst st. destruct (fetched !! "upload"); [done|].
    by rewrite lookup_insert_ne. }
  destruct (d !! "upload_history") as [theirs|].
  - assert (Hs : st !! "upload_history" ≠ None) by (by rewrite Hst).
    destruct (st !! "upload_history"); [by repeat step|done].
  - rewrite (proj2 Hst) by done. repeat step. rewrite lookup_insert_eq.
    cbn [default from_option id].
    destruct hh; cbn [append]; repeat step; try done.
Qed.

Lemma holding_world (w : world) :
  state (holding w) = state w ∧ state_json (holding w) = state_json w ∧
  writes (holding w) = writes w ∧ traces (holding w) = traces w ∧
  ∃ ext, objs (holding w) = objs w ++ ext.
Proof.
  unfold holding. destruct (state w !! "upload_history"); cbn; repeat split; eauto.
  exists []. by rewrite app_nil_r.
Qed.

Lemma download_failed_dry_run
    (e : env) (w : world) (up : list (string * json)) (dest : json) (n : Z) :
  state w !! "upload" = Some (PDict up) → assoc_get "to" up = Some dest →
  state w !! "serial" = Some (PNum n) → n ≠ 0 →
  sure e = false → dry_status e ≠ 0 →
  download e w = (Exits 1, add_trace NoActiveException (holding w)).
Proof.
  intros Hup Hto Hser Hn Hsure Hdry.
  unfold download. repeat step. rewrite Hup. repeat step. cbn [deepcopy]. repeat step.
  rewrite state_get_or_new_list_run.
  assert (Hrun : match state w !! "upload_history" with
                 | Some v => (Returns v, w)
                 | None => (Returns (PList (length (objs w))), set_objs (objs w ++ [[]]) w)
                 end = (Returns (held_ref w), holding w)).
  { unfold held_ref, holding. by destruct (state w !! "upload_history"). }
  rewrite Hrun. rewrite Hto. repeat step.
  destruct (holding_world w) as (Hst & _).
  rewrite serial_number_run, Hst, Hser. cbn [default from_option truthy id].
  apply Z.eqb_neq in Hn. rewrite Hn. cbn [negb]. repeat step.
  unfold try_except. repeat step.
  apply Z.eqb_neq in Hdry. rewrite Hsure, Hdry. cbn [negb andb]. by repeat step.
Qed.

(** X7.  Without an upload record [download] raises at once and the world is as
    before. *)
Theorem download_needs_upload (e : env) (w : world) :
  state w !! "upload" = None →
  download e w = (Raises (Error "cannot find upload key in the state"), w).
Proof. intros Hup. unfold download. repeat step. rewrite Hup. by repeat step. Qed.

(** X7 on a job never uploaded. *)
Lemma download_needs_upload_witness :
  download (sure_call 0 job7_remote) new_job_world
  = (Raises (Error "cannot find upload key in the state"), new_job_world).
Proof. apply download_needs_upload. reflexivity. Defined.

(** X8.  A dry run that exits nonzero ends [download] with the printed trace and
    exit status 1, whatever the user would have answered; nothing is saved. *)
Theorem download_stops_on_failed_dry_run
    (e : env) (w : world) (up : list (string * json)) (dest : json) (n : Z) :
  state w !! "upload" = Some (PDict up) → assoc_get "to" up = Some dest →
  state w !! "serial" = Some (PNum n) → n ≠ 0 →
  sure e = false → dry_status e ≠ 0 →
  ∃ w', download e w = (Exits 1, w') ∧
        traces w' = traces w ++ [NoActiveException] ∧
        state w' = state w ∧ state_json w' = state_json w ∧ writes w' = writes w.
Proof.
  intros Hup Hto Hser Hn Hsure Hdry.
  rewrite (download_failed_dry_run e w up dest n) by done.
  destruct (holding_world w) as (Hst & Hsj & Hwr & Htr & _).
  eexists. split; [reflexivity|]. cbn. by rewrite Htr.
Qed.

(** X8 with a dry run that exits 12 and a user who would say yes. *)
Lemma download_stops_on_failed_dry_run_witness :
  ∃ w', download (asking_call "yes" 12) job7_world = (Exits 1, w') ∧
        traces w' = traces job7_world ++ [NoActiveException] ∧
        state w' = state job7_world ∧ state_json w' = state_json job7_world ∧
        writes w' = writes job7_world.
Proof.
  apply (download_stops_on_failed_dry_run (asking_call "yes" 12) job7_world
           job7_record (JStr "host:/scratch/job7") 7);
    [reflexivity | reflexivity | reflexivity | lia | reflexivity | vm_compute; discriminate].
Defined.

(** X9.  When the state holds a history list and the file found after the
    transfers has none, [download] returns after one save, the list has one
    more entry, the pull, and state.json holds the state with that history. *)
Theorem download_appends_one_pull
    (e : env) (w : world) (up : list (string * json)) (dest : json) (n : Z)
    (d : gmap string json) (l : loc) (old : list json) :
  state w !! "upload" = Some (PDict up) → assoc_get "to" up = Some dest →
  state w !! "serial" = Some (PNum n) → n ≠ 0 →
  sure e = true ∨ dry_status e = 0 →
  (if confirmed e then after_pull e else state_json w) = Some (JsonObject d) →
  d !! "upload_history" = None →
  state w !! "upload_history" = Some (PList l) → objs w !! l = Some old →
  ∃ w' d', download e w = (Returns tt, w') ∧
     state w' = state w ∧
     objs w' !! l = Some (old ++ [pull_record e dest]) ∧
     writes w' = S (writes w) ∧
     state_json w' = Some (JsonObject d') ∧
     d' = dumps (objs w') (state w) ∧
     d' !! "upload_history" = Some (JArr (old ++ [pull_record e dest])).
Proof.
  intros Hup Hto Hser Hn Hdry Hfile Hd Hh Hold.
  rewrite (download_reaches_record e w up dest n) by done.
  rewrite download_record_run.
  assert (Hhold : holding w = w) by (unfold holding; by rewrite Hh).
  assert (Href : held_ref w = PList l) by (unfold held_ref; by rewrite Hh).
  rewrite Hhold, Href.
  assert (Hp : state_json (pulled e w) = Some (JsonObject d) ∧
               state (pulled e w) = state w ∧ objs (pulled e w) = objs w ∧
               writes (pulled e w) = writes w).
  { unfold pulled. by destruct (confirmed e). }
  destruct Hp as (Hpj & Hps & Hpo & Hpw). rewrite Hpj, Hd. cbn zeta.
  cbn [objs set_objs]. rewrite Hps, Hpo, Hpw.
  destruct (DotDict_spec d (objs w)) as [_ [ext Hext]]. rewrite Hext.
  assert (Hl : (objs w ++ ext) !! l = Some old) by (by apply lookup_app_l_Some).
  assert (Hder : deref (objs w ++ ext) l = old) by (unfold deref; by rewrite Hl).
  rewrite Hder.
  eexists _, _. split; [reflexivity|]. cbn [state objs writes state_json].
  assert (Hnew : <[l := old ++ [pull_record e dest]]> (objs w ++ ext) !! l
                 = Some (old ++ [pull_record e dest])).
  { apply list_lookup_insert_eq. by eapply lookup_lt_Some. }
  repeat split; try done.
  unfold dumps. rewrite lookup_fmap, Hh. cbn. unfold deref. by rewrite Hnew.
Qed.

(** X9 on the uploaded job and its remote copy. *)
Lemma download_appends_one_pull_witness :
  ∃ w' d', download (sure_call 0 job7_remote) job7_world = (Returns tt, w') ∧
     state w' = state job7_world ∧
     objs w' !! 0%nat
     = Some ([JObj job7_record]
             ++ [pull_record (sure_call 0 job7_remote) (JStr "host:/scratch/job7")]) ∧
     writes w' = S (writes job7_world) ∧
     state_json w' = Some (JsonObject d') ∧
     d' = dumps (objs w') (state job7_world) ∧
     d' !! "upload_history"
     = Some (JArr ([JObj job7_record]
                   ++ [pull_record (sure_call 0 job7_remote) (JStr "host:/scratch/job7")])).
Proof.
  apply (download_appends_one_pull (sure_call 0 job7_remote) job7_world
           job7_record (JStr "host:/scratch/job7") 7 job7_remote 0%nat [JObj job7_record]);
    [reflexivity | reflexivity | reflexivity | lia | left; reflexivity
    | reflexivity | reflexivity | reflexivity | reflexivity].
Defined.

(** X10.  When the state has no history, the pull goes to a list the state does
    not hold: what [download] saves has no [upload_history]. *)
Theorem download_drops_pull_without_history
    (e : env) (w : world) (up : list (string * json)) (dest : json) (n : Z)
    (d : gmap string json) :
  state w !! "upload" = Some (PDict up) → assoc_get "to" up = Some dest →
  state w !! "serial" = Some (PNum n) → n ≠ 0 →
  sure e = true ∨ dry_status e = 0 →
  (if confirmed e then after_pull e else state_json w) = Some (JsonObject d) →
  d !! "upload_history" = None →
  state w !! "upload_history" = None →
  ∃ w' d', download e w = (Returns tt, w') ∧
     state w' = state w ∧ writes w' = S (writes w) ∧
     state_json w' = Some (JsonObject d') ∧
     d' !! "upload_history" = None ∧
     objs w' !! length (objs w) = Some [pull_record e dest].
Proof.
  intros Hup Hto Hser Hn Hdry Hfile Hd Hh.
  rewrite (download_reaches_record e w up dest n) by done.
  rewrite download_record_run.
  assert (Hhold : holding w = set_objs (objs w ++ [[]]) w)
    by (unfold holding; by rewrite Hh).
  assert (Href : held_ref w = PList (length (objs w))) by (unfold held_ref; by rewrite Hh).
  rewrite Hhold, Href.
  set (w0 := set_objs (objs w ++ [[]]) w).
  assert (Hp : state_json (pulled e w0) = Some (JsonObject d) ∧
               state (pulled e w0) = state w ∧ objs (pulled e w0) = objs w ++ [[]] ∧
               writes (pulled e w0) = writes w).
  { unfold pulled. by destruct (confirmed e). }
  destruct Hp as (Hpj & Hps & Hpo & Hpw). rewrite Hpj, Hd. cbn zeta.
  cbn [objs set_objs]. rewrite Hps, Hpo, Hpw.
  destruct (DotDict_spec d (objs w ++ [[]])) as [_ [ext Hext]]. rewrite Hext.
  assert (Hl : ((objs w ++ [[]]) ++ ext) !! length (objs w) = Some []).
  { apply lookup_app_l_Some. rewrite lookup_app_r by lia. by rewrite Nat.sub_diag. }
  assert (Hder : deref ((objs w ++ [[]]) ++ ext) (length (objs w)) = [])
    by (unfold deref, loc; by rewrite Hl).
  rewrite Hder.
  eexists _, _. split; [reflexivity|]. cbn [state objs writes state_json].
  repeat split; try done.
  - unfold dumps. by rewrite lookup_fmap, Hh.
  - apply list_lookup_insert_eq. by eapply lookup_lt_Some.
Qed.

(** X10 on a job with an upload record and no history. *)
Lemma download_drops_pull_without_history_witness :
  ∃ w' d', download (sure_call 0 job7_remote) unlogged_world = (Returns tt, w') ∧
     state w' = state unlogged_world ∧ writes w' = S (writes unlogged_world) ∧
     state_json w' = Some (JsonObject d') ∧
     d' !! "upload_history" = None ∧
     objs w' !! length (objs unlogged_world)
     = Some [pull_record (sure_call 0 job7_remote) (JStr "host:/scratch/job7")].
Proof.
  apply (download_drops_pull_without_history (sure_call 0 job7_remote) unlogged_world
           job7_record (JStr "host:/scratch/job7") 7 job7_remote);
    [reflexivity | reflexivity | reflexivity | lia | left; reflexivity
    | reflexivity | reflexivity | reflexivity].
Defined.

Lemma dumps_lookup_none (h : list (list json)) (st : gmap string pyval) (k : string) :
  dumps h st !! k = None ↔ st !! k = None.
Proof. unfold dumps. rewrite lookup_fmap. by destruct (st !! k). Qed.

(** X11.  What a returning [download] saves is the state in memory: the saved
    document has the state's keys and the state's strings and numbers,
    whatever the fetched document held. *)
Theorem download_saves_the_local_state
    (e : env) (w : world) (up : list (string * json)) (dest : json) (n : Z)
    (d : gmap string json) :
  state w !! "upload" = Some (PDict up) → assoc_get "to" up = Some dest →
  state w !! "serial" = Some (PNum n) → n ≠ 0 →
  sure e = true ∨ dry_status e = 0 →
  (if confirmed e then after_pull e else state_json w) = Some (JsonObject d) →
  ∀ w', download e w = (Returns tt, w') →
  ∃ d', state_json w' = Some (JsonObject d') ∧
        (∀ k, d' !! k = None ↔ state w !! k = None) ∧
        (∀ k s, state w !! k = Some (PStr s) → d' !! k = Some (JStr s)) ∧
        (∀ k z, state w !! k = Some (PNum z) → d' !! k = Some (JNum z)).
Proof.
  intros Hup Hto Hser Hn Hdry Hfile w'.
  rewrite (download_reaches_record e w up dest n) by done.
  rewrite download_record_run.
  destruct (holding_world w) as (Hst & Hsj & _).
  assert (Hp : state_json (pulled e (holding w)) = Some (JsonObject d) ∧
               state (pulled e (holding w)) = state w).
  { unfold pulled. destruct (confirmed e); cbn; by rewrite ?Hsj. }
  destruct Hp as (Hpj & Hps). rewrite Hpj. cbn zeta. rewrite Hps.
  destruct (d !! "upload_history"); [discriminate|].
  destruct (held_ref w); try discriminate.
  intros [= <-]. eexists. split; [reflexivity|]. split; [|split].
  - intros k. apply dumps_lookup_none.
  - intros k s Hk. unfold dumps. by rewrite lookup_fmap, Hk.
  - intros k z Hk. unfold dumps. by rewrite lookup_fmap, Hk.
Qed.

(** X11 on the uploaded job and its remote copy. *)
Lemma download_saves_the_local_state_witness :
  ∃ d', state_json (download (sure_call 0 job7_remote) job7_world).2
        = Some (JsonObject d') ∧
        (∀ k, d' !! k = None ↔ state job7_world !! k = None) ∧
        (∀ k s, state job7_world !! k = Some (PStr s) → d' !! k = Some (JStr s)) ∧
        (∀ k z, state job7_world !! k = Some (PNum z) → d' !! k = Some (JNum z)).
Proof.
  apply (download_saves_the_local_state (sure_call 0 job7_remote) job7_world
           job7_record (JStr "host:/scratch/job7") 7 job7_remote);
    [reflexivity | reflexivity | reflexivity | lia | left; reflexivity
    | reflexivity | vm_compute; reflexivity].
Defined.

(** X12.  With no state.json after the transfers [download] returns and saves
    nothing; with one that is not JSON it prints the trace of the decoding
    error and exits with status 1, the file left as found. *)
Theorem download_without_readable_document
    (e : env) (w : world) (up : list (string * json)) (dest : json) (n : Z) :
  state w !! "upload" = Some (PDict up) → assoc_get "to" up = Some dest →
  state w !! "serial" = Some (PNum n) → n ≠ 0 →
  sure e = true ∨ dry_status e = 0 →
  ((if confirmed e then after_pull e else state_json w) = None →
   ∃ w', download e w = (Returns tt, w') ∧
         state w' = state w ∧ writes w' = writes w ∧ traces w' = traces w ∧
         state_json w' = None) ∧
  (∀ raw, (if confirmed e then after_pull e else state_json w) = Some (Unparseable raw) →
   ∃ w', download e w = (Exits 1, w') ∧
         state w' = state w ∧ writes w' = writes w ∧
         traces w' = traces w ++ [ValueError] ∧
         state_json w' = Some (Unparseable raw)).
Proof.
  intros Hup Hto Hser Hn Hdry.
  rewrite (download_reaches_record e w up dest n) by done.
  rewrite download_record_run.
  destruct (holding_world w) as (Hst & Hsj & Hwr & Htr & _).
  assert (Hp : state_json (pulled e (holding w))
               = (if confirmed e then after_pull e else state_json w) ∧
               state (pulled e (holding w)) = state w ∧
               writes (pulled e (holding w)) = writes w ∧
               traces (pulled e (holding w)) = traces w).
  { unfold pulled. destruct (confirmed e); cbn; by rewrite ?Hsj, ?Hst, ?Hwr, ?Htr. }
  destruct Hp as (Hpj & Hps & Hpw & Hpt). rewrite Hpj.
  split.
  - intros Hnone. rewrite Hnone in *. eexists. split; [reflexivity|]. auto.
  - intros raw Hraw. rewrite Hraw in *. eexists. split; [reflexivity|].
    cbn [add_trace state writes traces state_json].
    rewrite Hpt. auto.
Qed.

(** X12 without a state.json, and with one that is not JSON. *)
Lemma download_without_readable_document_witness :
  (∃ w', download (asking_call "n" 0) unlogged_world = (Returns tt, w') ∧
         state w' = state unlogged_world ∧ writes w' = writes unlogged_world ∧
         traces w' = traces unlogged_world ∧ state_json w' = None) ∧
  (∃ w', download garbled_call job7_world = (Exits 1, w') ∧
         state w' = state job7_world ∧ writes w' = writes job7_world ∧
         traces w' = traces job7_world ++ [ValueError] ∧
         state_json w' = Some (Unparseable "{here: ")).
Proof.
  split.
  - apply (proj1 (download_without_readable_document (asking_call "n" 0) unlogged_world
                    job7_record (JStr "host:/scratch/job7") 7
                    eq_refl eq_refl eq_refl ltac:(lia) (or_intror eq_refl))).
    reflexivity.
  - apply (proj2 (download_without_readable_document garbled_call job7_world
                    job7_record (JStr "host:/scratch/job7") 7
                    eq_refl eq_refl eq_refl ltac:(lia) (or_introl eq_refl))).
    reflexivity.
Defined.

(** X13.  Once the state names a destination and has a numeric serial,
    [download] returns or exits with status 1. *)
Theorem download_lets_no_exception_out
    (e : env) (w : world) (up : list (string * json)) (dest : json) (n : Z) :
  state w !! "upload" = Some (PDict up) → assoc_get "to" up = Some dest →
  state w !! "serial" = Some (PNum n) → n ≠ 0 →
  (download e w).1 = Returns tt ∨ (download e w).1 = Exits 1.
Proof.
  intros Hup Hto Hser Hn.
  destruct (sure e) eqn:Hsure; [|destruct (Z.eq_dec (dry_status e) 0) as [Hz|Hnz]].
  - rewrite (download_reaches_record e w up dest n) by auto.
    rewrite download_record_run.
    destruct (state_json _) as [[raw|j|d]|]; cbn; auto.
    destruct (d !! "upload_history"); cbn; auto.
    destruct (held_ref w); cbn; auto.
  - rewrite (download_reaches_record e w up dest n) by auto.
    rewrite download_record_run.
    destruct (state_json _) as [[raw|j|d]|]; cbn; auto.
    destruct (d !! "upload_history"); cbn; auto.
    destruct (held_ref w); cbn; auto.
  - rewrite (download_failed_dry_run e w up dest n) by done. auto.
Qed.

(** X13 on a pull that brings a state.json that is not JSON. *)
Lemma download_lets_no_exception_out_witness :
  (download garbled_call job7_world).1 = Returns tt ∨
  (download garbled_call job7_world).1 = Exits 1.
Proof.
  apply (download_lets_no_exception_out garbled_call job7_world
           job7_record (JStr "host:/scratch/job7") 7);
    [reflexivity | reflexivity | reflexivity | lia].
Defined.

(** X28.  When the document found after the transfers has a history of its
    own, whatever it is, [download] prints the trace of the merge exception
    and exits with status 1: nothing is saved, state.json stays the fetched
    file and the state in memory is as before. *)
Theorem download_stops_on_fetched_history
    (e : env) (w : world) (up : list (string * json)) (dest : json) (n : Z)
    (d : gmap string json) (theirs : json) :
  state w !! "upload" = Some (PDict up) → assoc_get "to" up = Some dest →
  state w !! "serial" = Some (PNum n) → n ≠ 0 →
  sure e = true ∨ dry_status e = 0 →
  (if confirmed e then after_pull e else state_json w) = Some (JsonObject d) →
  d !! "upload_history" = Some theirs →
  ∃ w', download e w = (Exits 1, w') ∧
        traces w' = traces w
                    ++ [Error "development error. need to merge upload history here."] ∧
        state_json w' = Some (JsonObject d) ∧
        writes w' = writes w ∧ state w' = state w ∧
        ∃ ext, objs w' = objs w ++ ext.
Proof.
  intros Hup Hto Hser Hn Hdry Hfile Htheirs.
  unfold download. repeat step. rewrite Hup. repeat step. cbn [deepcopy]. repeat step.
  rewrite state_get_or_new_list_run.
  set (w0 := match state w !! "upload_history" with
             | Some _ => w | None => set_objs (objs w ++ [[]]) w end).
  assert (Hw0 : state w0 = state w ∧ state_json w0 = state_json w ∧
                writes w0 = writes w ∧ traces w0 = traces w ∧
                ∃ ext, objs w0 = objs w ++ ext).
  { subst w0. destruct (state w !! "upload_history"); cbn; repeat split; eauto.
    exists []. by rewrite app_nil_r. }
  destruct Hw0 as (Hst0 & Hsj0 & Hwr0 & Htr0 & ext0 & Hob0).
  assert (Hrun : ∃ hh, match state w !! "upload_history" with
                       | Some v => (Returns v, w)
                       | None => (Returns (PList (length (objs w))),
                                  set_objs (objs w ++ [[]]) w)
                       end = (Returns hh, w0)).
  { subst w0. destruct (state w !! "upload_history"); cbn; eauto. }
  destruct Hrun as [hh ->]. rewrite Hto. repeat step.
  rewrite serial_number_run, Hst0, Hser. cbn [default from_option truthy id].
  apply Z.eqb_neq in Hn. rewrite Hn. cbn [negb]. repeat step.
  unfold try_except.
  assert (Hcheck : negb (sure e) && negb (dry_status e =? 0) = false).
  { destruct Hdry as [-> | ->]; [done|]. by rewrite andb_false_r. }
  repeat step. rewrite Hcheck. repeat step.
  set (w1 := if confirmed e then set_state_json (after_pull e) w0 else w0).
  assert (Hw1 : state w1 = state w ∧ state_json w1 = Some (JsonObject d) ∧
                writes w1 = writes w ∧ traces w1 = traces w ∧ objs w1 = objs w0).
  { subst w1. destruct (confirmed e); cbn; repeat split; try done. by rewrite Hsj0. }
  destruct Hw1 as (Hst1 & Hsj1 & Hwr1 & Htr1 & Hob1).
  assert (Hmod : (if confirmed e then modify (set_state_json (after_pull e)) else mret ()) w0
                 = (Returns tt, w1)).
  { subst w1. by destruct (confirmed e). }
  rewrite Hmod. unfold download_record. repeat step. rewrite Hsj1. repeat step.
  destruct (DotDict_spec d (objs w1)) as [Hdom [ext1 Hext1]].
  destruct (DotDict d (objs w1)) as [fetched h1] eqn:HD. cbn in Hdom, Hext1. repeat step.
  assert (Hf : is_Some (fetched !! "upload_history")).
  { apply not_eq_None_Some. rewrite Hdom, Htheirs. done. }
  destruct Hf as [x Hx].
  unfold merge_fetched.
  assert (Hm : (match fetched !! "upload" with
                | Some _ => fetched | None => <["upload" := PDict up]> fetched end)
               !! "upload_history" = Some x).
  { destruct (fetched !! "upload"); [done|]. by rewrite lookup_insert_ne. }
  rewrite Hm. cbn [raise]. repeat step. unfold add_trace. repeat step.
  eexists. split; [reflexivity|]. cbn.
  rewrite Htr1, Hsj1, Hwr1, Hst1. repeat split; try done.
  exists (ext0 ++ ext1). by rewrite Hext1, Hob1, Hob0, app_assoc.
Qed.

(** X28 at the uploaded job, pulling a remote copy with a history of its
    own. *)
Lemma download_stops_on_fetched_history_witness :
  ∃ w', download (sure_call 0 job7_remote_logged) job7_world = (Exits 1, w') ∧
        traces w' = traces job7_world
                    ++ [Error "development error. need to merge upload history here."] ∧
        state_json w' = Some (JsonObject job7_remote_logged) ∧
        writes w' = writes job7_world ∧ state w' = state job7_world ∧
        ∃ ext, objs w' = objs job7_world ++ ext.
Proof.
  eapply download_stops_on_fetched_history with (n := 7);
    [reflexivity | reflexivity | reflexivity | lia | left; reflexivity
    | reflexivity | reflexivity].
Defined.

(** ** The serial, and saving and loading *)

#[global] Instance serial_stays_preorder (v : pyval) : PreOrder (serial_stays v).
Proof.
  split.
  - by intros w H.
  - intros w1 w2 w3 H12 H23 H. by apply H23, H12.
Qed.

Lemma serial_stays_state (v : pyval) (w w' : world) :
  state w' = state w → serial_stays v w w'.
Proof. intros Hs H. by rewrite Hs. Qed.

Section Serial.
Context (n : Z) (Hn : n ≠ 0).

Lemma statesave_serial : respects (serial_stays (PNum n)) statesave.
Proof. intros w. by apply serial_stays_state. Qed.

Lemma state_set_and_save_serial (k : string) (v : pyval) :
  k ≠ "serial" → respects (serial_stays (PNum n)) (state_set_and_save k v).
Proof.
  intros Hk w H. unfold state_set_and_save, statesave. rewrite run_bind. cbn.
  by rewrite lookup_insert_ne.
Qed.

Lemma new_list_serial (xs : list json) : respects (serial_stays (PNum n)) (new_list xs).
Proof. intros w. by apply serial_stays_state. Qed.

Lemma append_serial (v : pyval) (x : json) : respects (serial_stays (PNum n)) (append v x).
Proof. destruct v; intros w; by apply serial_stays_state. Qed.

Lemma deepcopy_serial (v : pyval) : respects (serial_stays (PNum n)) (deepcopy v).
Proof. destruct v; intros w; by apply serial_stays_state. Qed.

Lemma state_get_or_new_list_serial (k : string) :
  respects (serial_stays (PNum n)) (state_get_or_new_list k).
Proof.
  intros w. rewrite state_get_or_new_list_run.
  destruct (state w !! k); by apply serial_stays_state.
Qed.

Lemma serial_number_serial (e : env) : respects (serial_stays (PNum n)) (serial_number e).
Proof using Hn.
  intros w H. rewrite serial_number_run, H. cbn [default from_option id truthy].
  apply Z.eqb_neq in Hn. by rewrite Hn.
Qed.

Lemma merge_fetched_serial (fetched : gmap string pyval) (hu hh : pyval) :
  respects (serial_stays (PNum n)) (merge_fetched fetched hu hh).
Proof.
  intros w. unfold merge_fetched.
  destruct (_ !! "upload_history"); cbn; reflexivity.
Qed.

Lemma decode_serial (d : gmap string json) :
  respects (serial_stays (PNum n))
    (λ w, let '(st, h) := DotDict d (objs w) in (Returns st, set_objs h w)).
Proof. intros w. destruct (DotDict d (objs w)). by apply serial_stays_state. Qed.
End Serial.

(** Walks through a command and settles each step on the serial. *)
Ltac keep_serial Hn :=
  repeat first
    [ match goal with |- PreOrder _ => apply _ end
    | apply respects_ret | apply respects_raise | apply respects_exit
    | apply respects_get_world
    | apply statesave_serial | apply new_list_serial | apply append_serial
    | apply deepcopy_serial | apply state_get_or_new_list_serial
    | apply merge_fetched_serial | apply decode_serial
    | apply (serial_number_serial _ Hn)
    | apply state_set_and_save_serial; discriminate
    | apply respects_modify; intros ?; by apply serial_stays_state
    | apply respects_bind; [apply _| |intros ?]
    | apply respects_try; [apply _| |intros ?]
    | match goal with |- respects _ (match ?x with _ => _ end) => destruct x end ].

(** X14.  A serial that is a number other than zero is what [serial_number]
    returns, without a save, and is the state's serial after [upload] and
    after [download]. *)
Theorem nonzero_serial_is_kept (e : env) (w : world) (n : Z) :
  state w !! "serial" = Some (PNum n) → n ≠ 0 →
  serial_number e w = (Returns (PNum n), w) ∧
  state (upload e w).2 !! "serial" = Some (PNum n) ∧
  state (download e w).2 !! "serial" = Some (PNum n).
Proof.
  intros Hs Hn. split; [|split].
  - rewrite serial_number_run, Hs. cbn [default from_option id truthy].
    apply Z.eqb_neq in Hn. by rewrite Hn.
  - assert (Hr : respects (serial_stays (PNum n)) (upload e))
      by (unfold upload; keep_serial Hn).
    by apply Hr.
  - assert (Hr : respects (serial_stays (PNum n)) (download e))
      by (unfold download, download_record; keep_serial Hn).
    by apply Hr.
Qed.

(** X14 on the uploaded job, serial 7. *)
Lemma nonzero_serial_is_kept_witness :
  serial_number (sure_call 0 job7_remote) job7_world = (Returns (PNum 7), job7_world) ∧
  state (upload (sure_call 0 job7_remote) job7_world).2 !! "serial" = Some (PNum 7) ∧
  state (download (sure_call 0 job7_remote) job7_world).2 !! "serial" = Some (PNum 7).
Proof.
  apply (nonzero_serial_is_kept (sure_call 0 job7_remote) job7_world 7);
    [reflexivity | lia].
Defined.

(** X15.  If the draw is not zero, a second call of [serial_number] returns what
    the first returned and leaves the world the first left. *)
Theorem serial_number_twice (e e' : env) (w : world) :
  randint e ≠ 0 →
  serial_number e' (serial_number e w).2
  = ((serial_number e w).1, (serial_number e w).2).
Proof.
  intros Hr. rewrite (serial_number_run e w).
  destruct (truthy (objs w) (default PNone (state w !! "serial"))) eqn:Ht; cbn [fst snd].
  - by rewrite serial_number_run, Ht.
  - rewrite serial_number_run. cbn [state objs]. rewrite lookup_insert_eq.
    cbn [default from_option id truthy]. apply Z.eqb_neq in Hr. by rewrite Hr.
Qed.

(** X15 on the job without serial. *)
Lemma serial_number_twice_witness :
  serial_number (sure_call 0 job7_remote)
    (serial_number (sure_call 1 job7_remote) unnumbered_world).2
  = ((serial_number (sure_call 1 job7_remote) unnumbered_world).1,
     (serial_number (sure_call 1 job7_remote) unnumbered_world).2).
Proof.
  apply (serial_number_twice (sure_call 1 job7_remote) (sure_call 0 job7_remote)
           unnumbered_world).
  vm_compute. discriminate.
Defined.

Lemma dumps_same_lists (h h' : list (list json)) (st : gmap string pyval) :
  (∀ k l, st !! k = Some (PList l) → h' !! l = h !! l) →
  dumps h' st = dumps h st.
Proof.
  intros Heq. unfold dumps. apply map_eq. intros k. rewrite !lookup_fmap.
  destruct (st !! k) as [v|] eqn:Hk; [|done]. cbn. f_equal.
  destruct v; try done. cbn. unfold deref. by rewrite (Heq k l Hk).
Qed.

(** Decoding a document and encoding the result gives the document back. *)
Lemma dumps_DotDict (d : gmap string json) (h : list (list json)) :
  dumps (DotDict d h).2 (DotDict d h).1 = d.
Proof.
  unfold DotDict.
  apply (map_fold_weak_ind
    (λ (r : gmap string pyval * list (list json)) (m : gmap string json),
       dumps r.2 r.1 = m ∧
       ∀ k l, r.1 !! k = Some (PList l) → (l < length r.2)%nat)).
  - split; [apply fmap_empty|]. intros k l Hk. cbn in Hk. by apply lookup_empty_Some in Hk.
  - intros i x m r Hi [Hd Hlt].
    destruct (load_value x r.2) as [v h'] eqn:Hl. cbn [fst snd].
    assert (Hext : ∃ ext, h' = r.2 ++ ext ∧ dump_value h' v = x ∧
                   ∀ l, v = PList l → (l < length h')%nat).
    { destruct x; cbn in Hl; injection Hl as <- <-;
        try (exists []; rewrite app_nil_r; by repeat split).
      exists [xs]. split; [done|]. split.
      - cbn. unfold deref. rewrite lookup_app_r by lia. by rewrite Nat.sub_diag.
      - intros l [= <-]. rewrite length_app. cbn. lia. }
    destruct Hext as (ext & -> & Hv & Hvl). split.
    + unfold dumps. rewrite fmap_insert, Hv. f_equal.
      rewrite <- Hd. apply dumps_same_lists. intros k l Hk.
      apply lookup_app_l. by eapply Hlt.
    + intros k l. rewrite lookup_insert. case_decide as Hik.
      * intros [= ->]. by apply Hvl.
      * intros Hk. rewrite length_app. specialize (Hlt k l Hk). lia.
Qed.

(** X16.  The state read back from what [statesave] wrote serialises to the
    document of the state that was saved. *)
Theorem save_then_load_round_trip (w : world) (h : list (list json)) :
  let loaded := loadstate_state (state_json (statesave w).2) h in
  dumps loaded.2 loaded.1 = dumps (objs w) (state w).
Proof. cbn. apply dumps_DotDict. Qed.

(** ** hardstart, once it has written *)

Lemma write_file_isfile (name : string) (text : file_content) (now : Z) (fs fs' : tree) :
  write_file name text now fs = Some fs' → os_path_isfile name fs' = true.
Proof.
  unfold os_path_isfile. revert fs'.
  induction fs as [|[n x] fs IH]; intros fs'; cbn.
  - intros [= <-]. cbn. by rewrite String.eqb_refl.
  - destruct (String.eqb name n) eqn:Hn.
    + destruct x; [|done]. intros [= <-]. cbn. by rewrite Hn.
    + destruct (write_file name text now fs) as [fs1|]; [|done].
      intros [= <-]. cbn. rewrite Hn. by apply IH.
Qed.

Lemma write_file_absent (name : string) (text : file_content) (now : Z) (fs fs' : tree) :
  os_path_isfile name fs = false →
  write_file name text now fs = Some fs' →
  lookup_node name fs = None.
Proof.
  unfold os_path_isfile. revert fs'.
  induction fs as [|[n x] fs IH]; intros fs'; cbn; [done|].
  destruct (String.eqb name n) eqn:Hn.
  - by destruct x.
  - intros Hf. destruct (write_file name text now fs) as [fs1|] eqn:Hw; [|done].
    intros _. by eapply IH.
Qed.

(** What a returning run has gone through. *)
Lemma hardstart_returns (e : henv) (fs fs' : tree) :
  hardstart e fs = (Returns tt, fs') →
  ∃ d paths cpo s,
    lookup_node "state.json" fs = None ∧
    current_step fs = Some d ∧ gmx_get_paths e = Some paths ∧
    last (part_files "cpt" (glob_entries e d.1 fs)) = Some cpo ∧
    last (part_files "tpr" (glob_entries e d.1 fs)) = Some s ∧
    fs' = fs ++ [("state.json",
                  File (clock e)
                    (JsonObject (fresh_state (path_join d.1 "") paths cpo.1 s.1)))].
Proof.
  rewrite hardstart_run.
  destruct (os_path_isfile "state.json" fs) eqn:Hfile; [done|].
  destruct (current_step fs) as [d|]; [|done].
  destruct (gmx_get_paths e) as [paths|]; [|done].
  destruct (last (part_files "cpt" _)) as [cpo|] eqn:Hc; [|done].
  destruct (last (part_files "tpr" _)) as [s|] eqn:Ht; [|done].
  unfold open_and_write.
  destruct (write_file _ _ _ _) as [fs1|] eqn:Hw; [|done].
  intros [= <-]. exists d, paths, cpo, s.
  assert (Hnone : lookup_node "state.json" fs = None) by (by eapply write_file_absent).
  rewrite write_file_new in Hw by done. injection Hw as <-. done.
Qed.

(** X17.  A returning [hardstart] started without an entry state.json and leaves
    the tree with that one file added behind the others. *)
Theorem hardstart_only_adds_state_json (e : henv) (fs fs' : tree) :
  hardstart e fs = (Returns tt, fs') →
  lookup_node "state.json" fs = None ∧
  ∃ doc, fs' = fs ++ [("state.json", File (clock e) (JsonObject doc))].
Proof.
  intros Hr. apply hardstart_returns in Hr as (d & paths & cpo & s & Hn & _ & _ & _ & _ & ->).
  eauto.
Qed.

(** X17 on the scenario's tree. *)
Lemma hardstart_only_adds_state_json_witness :
  lookup_node "state.json" s003_tree = None ∧
  ∃ doc, (hardstart sample_henv s003_tree).2
         = s003_tree ++ [("state.json", File (clock sample_henv) (JsonObject doc))].
Proof.
  apply (hardstart_only_adds_state_json sample_henv s003_tree).
  vm_compute. reflexivity.
Defined.

(** X18.  After a [hardstart] that returned, a further one is refused and leaves
    the tree as the first left it. *)
Theorem hardstart_refuses_second_run (e e' : henv) (fs fs' : tree) :
  hardstart e fs = (Returns tt, fs') →
  hardstart e' fs' = (Raises (Error "cannot hard restart if state.json is here"), fs').
Proof.
  rewrite (hardstart_run e fs).
  destruct (os_path_isfile "state.json" fs) eqn:Hfile; [done|].
  destruct (current_step fs) as [d|]; [|done].
  destruct (gmx_get_paths e) as [paths|]; [|done].
  destruct (last (part_files "cpt" _)) as [cpo|]; [|done].
  destruct (last (part_files "tpr" _)) as [s|]; [|done].
  unfold open_and_write.
  destruct (write_file _ _ _ _) as [fs1|] eqn:Hw; [|done].
  intros [= <-]. apply write_file_isfile in Hw.
  by rewrite hardstart_run, Hw.
Qed.

(** X18 on the scenario's tree. *)
Lemma hardstart_refuses_second_run_witness :
  hardstart sample_henv (hardstart sample_henv s003_tree).2
  = (Raises (Error "cannot hard restart if state.json is here"),
     (hardstart sample_henv s003_tree).2).
Proof.
  apply (hardstart_refuses_second_run sample_henv sample_henv s003_tree).
  vm_compute. reflexivity.
Defined.

(** X19.  A directory named state.json passes the check of line 574; when
    there is a current step, the tool paths are resolved and [glob] finds a
    last file of each kind, the write of line 590 raises and the tree is
    unchanged. *)
Theorem hardstart_cannot_replace_directory
    (e : henv) (fs : tree) (d : string * node) (paths : json) (cpo s : string * Z)
    (t : Z) (es : list (string * Z)) :
  lookup_node "state.json" fs = Some (Dir t es) →
  current_step fs = Some d → gmx_get_paths e = Some paths →
  last (part_files "cpt" (glob_entries e d.1 fs)) = Some cpo →
  last (part_files "tpr" (glob_entries e d.1 fs)) = Some s →
  hardstart e fs = (Raises IsADirectoryError, fs).
Proof.
  intros Hdir Hd Hp Hc Ht. rewrite hardstart_run.
  unfold os_path_isfile. rewrite Hdir, Hd, Hp, Hc, Ht.
  unfold open_and_write.
  assert (Hw : ∀ text now, write_file "state.json" text now fs = None).
  { intros text now. clear -Hdir.
    induction fs as [|[n x] fs IH]; cbn [write_file lookup_node] in *; [done|].
    destruct (String.eqb "state.json" n); [by injection Hdir as ->|].
    by rewrite IH. }
  by rewrite Hw.
Qed.

(** X19 on the scenario's tree with a directory state.json. *)
Lemma hardstart_cannot_replace_directory_witness :
  hardstart sample_henv blocked_tree = (Raises IsADirectoryError, blocked_tree).
Proof.
  apply (hardstart_cannot_replace_directory sample_henv blocked_tree
           ("s003-run", Dir 400 [("md.part0002.cpt", 100); ("md.part0003.cpt", 300);
                                 ("md.part0003.tpr", 200); ("md.log", 310)])
           sample_paths ("md.part0003.cpt", 300) ("md.part0003.tpr", 200) 450 []);
    reflexivity.
Defined.

Lemma lookup_node_added (name : string) (x : node) (fs : tree) :
  lookup_node name fs = None → lookup_node name (fs ++ [(name, x)]) = Some x.
Proof.
  induction fs as [|[n y] fs IH]; cbn [app lookup_node].
  - by rewrite String.eqb_refl.
  - destruct (String.eqb name n); [discriminate|]. apply IH.
Qed.

Lemma list_ascii_of_string_app (a b : string) :
  list_ascii_of_string (a +:+ b) = list_ascii_of_string a ++ list_ascii_of_string b.
Proof.
  induction a as [|c a IH]; [done|].
  change (String c a +:+ b) with (String c (a +:+ b)). cbn. by rewrite IH.
Qed.

Lemma append_empty_r (a : string) : a +:+ "" = a.
Proof.
  induction a as [|c a IH]; [done|].
  change (String c a +:+ "") with (String c (a +:+ "")). by rewrite IH.
Qed.

(** [os.path.join(a,'')] ends with a slash for every name but the empty one. *)
Lemma path_join_empty_slash (a : string) :
  a ≠ "" → ends_with_slash (path_join a "") = true.
Proof.
  intros Ha. unfold path_join. apply String.eqb_neq in Ha. rewrite Ha.
  destruct (ends_with_slash a) eqn:Hs.
  - by rewrite append_empty_r.
  - unfold ends_with_slash.
    change (a +:+ "/" +:+ "") with (a +:+ "/").
    rewrite list_ascii_of_string_app. cbn [list_ascii_of_string].
    rewrite rev_app_distr. reflexivity.
Qed.

Lemma step_pattern_nonempty (name : string) : step_pattern name = true → name ≠ "".
Proof. by destruct name. Qed.

(** X20.  The step path [hardstart] writes ends with a slash. *)
Theorem hardstart_here_ends_with_slash (e : henv) (fs fs' : tree) :
  hardstart e fs = (Returns tt, fs') →
  ∃ doc here,
    lookup_node "state.json" fs' = Some (File (clock e) (JsonObject doc)) ∧
    doc !! "here" = Some (JStr here) ∧
    ends_with_slash here = true.
Proof.
  intros Hr.
  apply hardstart_returns in Hr as (d & paths & cpo & s & Hn & Hd & _ & _ & _ & ->).
  eexists _, (path_join d.1 ""). split; [|split].
  - by apply lookup_node_added.
  - unfold fresh_state. by rewrite lookup_insert_eq.
  - apply path_join_empty_slash, step_pattern_nonempty.
    apply current_step_latest in Hd as [(_ & Hp & _) _]. done.
Qed.

(** X20 on the scenario's tree. *)
Lemma hardstart_here_ends_with_slash_witness :
  ∃ doc here,
    lookup_node "state.json" (hardstart sample_henv s003_tree).2
    = Some (File (clock sample_henv) (JsonObject doc)) ∧
    doc !! "here" = Some (JStr here) ∧
    ends_with_slash here = true.
Proof.
  apply (hardstart_here_ends_with_slash sample_henv s003_tree).
  vm_compute. reflexivity.
Defined.

Lemma dump_value_str (h : list (list json)) (v : pyval) (s : string) :
  dump_value h v = JStr s → v = PStr s.
Proof. destruct v; cbn; congruence. Qed.

Lemma dump_value_arr (h : list (list json)) (v : pyval) (xs : list json) :
  dump_value h v = JArr xs → ∃ l, v = PList l ∧ deref h l = xs.
Proof. destruct v; cbn; try congruence. intros [= <-]. eauto. Qed.

Lemma load_lookup (doc : gmap string json) (h : list (list json)) (k : string) :
  dump_value (loadstate_state (Some (JsonObject doc)) h).2
    <$> (loadstate_state (Some (JsonObject doc)) h).1 !! k
  = doc !! k.
Proof.
  cbn [loadstate_state]. rewrite <- lookup_fmap.
  change (dumps (DotDict doc h).2 (DotDict doc h).1 !! k = doc !! k).
  by rewrite dumps_DotDict.
Qed.

Lemma load_lookup_str (doc : gmap string json) (h : list (list json)) (k s : string) :
  doc !! k = Some (JStr s) →
  (loadstate_state (Some (JsonObject doc)) h).1 !! k = Some (PStr s).
Proof.
  intros Hk. pose proof (load_lookup doc h k) as Hl. rewrite Hk in Hl.
  destruct ((loadstate_state _ h).1 !! k) as [v|]; [|discriminate].
  cbn [fmap option_fmap option_map] in Hl.
  injection Hl as Hl. by apply dump_value_str in Hl as ->.
Qed.

Lemma load_lookup_arr (doc : gmap string json) (h : list (list json)) (k : string)
    (xs : list json) :
  doc !! k = Some (JArr xs) →
  ∃ l, (loadstate_state (Some (JsonObject doc)) h).1 !! k = Some (PList l) ∧
       deref (loadstate_state (Some (JsonObject doc)) h).2 l = xs.
Proof.
  intros Hk. pose proof (load_lookup doc h k) as Hl. rewrite Hk in Hl.
  destruct ((loadstate_state _ h).1 !! k) as [v|]; [|discriminate].
  cbn [fmap option_fmap option_map] in Hl.
  injection Hl as Hl. apply dump_value_arr in Hl as (l & -> & Hl). eauto.
Qed.

Lemma load_lookup_none (doc : gmap string json) (h : list (list json)) (k : string) :
  doc !! k = None → (loadstate_state (Some (JsonObject doc)) h).1 !! k = None.
Proof.
  intros Hk. pose proof (load_lookup doc h k) as Hl. rewrite Hk in Hl.
  by destruct ((loadstate_state _ h).1 !! k).
Qed.

(** X21.  The document [hardstart] wrote loads into a state with the step path as
    a string and a history list of the one synthetic call, and without
    serial or upload record. *)
Theorem hardstart_then_load (e : henv) (fs fs' : tree) (h : list (list json)) :
  hardstart e fs = (Returns tt, fs') →
  ∃ doc here cpo s l,
    lookup_node "state.json" fs' = Some (File (clock e) (JsonObject doc)) ∧
    let loaded := loadstate_state (Some (JsonObject doc)) h in
    loaded.1 !! "here" = Some (PStr here) ∧
    loaded.1 !! "history_gmx" = Some (PList l) ∧
    deref loaded.2 l = [synthetic_call cpo s] ∧
    loaded.1 !! "serial" = None ∧ loaded.1 !! "upload" = None.
Proof.
  intros Hr.
  apply hardstart_returns in Hr as (d & paths & cpo & s & Hn & Hd & _ & _ & _ & ->).
  destruct (load_lookup_arr (fresh_state (path_join d.1 "") paths cpo.1 s.1) h
              "history_gmx" [synthetic_call cpo.1 s.1]) as (l & Hl1 & Hl2).
  { unfold fresh_state. by rewrite !lookup_insert_ne, lookup_singleton_eq. }
  eexists _, (path_join d.1 ""), cpo.1, s.1, l.
  split; [by apply lookup_node_added|]. cbn zeta.
  split; [|split; [exact Hl1|split; [exact Hl2|split]]].
  - apply load_lookup_str. unfold fresh_state. by rewrite lookup_insert_eq.
  - apply load_lookup_none. unfold fresh_state.
    by rewrite !lookup_insert_ne, lookup_singleton_ne.
  - apply load_lookup_none. unfold fresh_state.
    by rewrite !lookup_insert_ne, lookup_singleton_ne.
Qed.

(** X21 on the scenario's tree. *)
Lemma hardstart_then_load_witness :
  ∃ doc here cpo s l,
    lookup_node "state.json" (hardstart sample_henv s003_tree).2
    = Some (File (clock sample_henv) (JsonObject doc)) ∧
    let loaded := loadstate_state (Some (JsonObject doc)) [] in
    loaded.1 !! "here" = Some (PStr here) ∧
    loaded.1 !! "history_gmx" = Some (PList l) ∧
    deref loaded.2 l = [synthetic_call cpo s] ∧
    loaded.1 !! "serial" = None ∧ loaded.1 !! "upload" = None.
Proof.
  apply (hardstart_then_load sample_henv s003_tree).
  vm_compute. reflexivity.
Defined.

Lemma sorted_of_ordered {A} (key : A → Z) (l : list A) :
  StronglySorted (earlier key) l → sorted key l = l.
Proof.
  induction 1 as [|x l Hs IH Hall]; [done|].
  change (sorted key (x :: l)) with (insert_sorted key x (sorted key l)).
  rewrite IH. destruct l as [|y l']; [done|].
  cbn [insert_sorted]. apply Forall_cons in Hall as [Hxy _]. unfold earlier in Hxy.
  apply Z.leb_le in Hxy. by rewrite Hxy.
Qed.

(** X22.  When the step folders are listed in the order of their modification
    times, ties included, the current step is the one listed last. *)
Theorem current_step_of_ordered_listing (fs : tree) :
  StronglySorted (earlier (λ d : string * node, node_mtime d.2))
    (filter (λ d, Is_true (negb (hidden d.1) && step_pattern d.1 && os_path_isdir d.1 fs)) fs) →
  current_step fs
  = last (filter (λ d, Is_true (negb (hidden d.1) && step_pattern d.1
                                && os_path_isdir d.1 fs)) fs).
Proof. intros Hs. unfold current_step, step_dirs. by rewrite sorted_of_ordered. Qed.

(** X22 on two step folders with the same time. *)
Lemma current_step_of_ordered_listing_witness :
  current_step copied_tree
  = Some ("s01-a", Dir 100 [("md.part0001.cpt", 10); ("md.part0001.tpr", 5)]).
Proof.
  rewrite (current_step_of_ordered_listing copied_tree); [reflexivity|].
  change (StronglySorted (earlier (λ d : string * node, node_mtime d.2)) copied_tree).
  repeat constructor; unfold earlier; cbn; lia.
Defined.

(** ** hardstart on a step name that is no pattern *)

(** The hidden names are no continuation files. *)
Lemma part_listing (suf : string) (entries : list (string * Z)) :
  filter (λ f, Is_true (negb (hidden f.1) && ends_with ("." +:+ suf) f.1
                        && part_pattern suf f.1)) entries
  = filter (λ f, Is_true (ends_with ("." +:+ suf) f.1 && part_pattern suf f.1)) entries.
Proof.
  apply list_filter_iff. intros f.
  destruct (part_pattern suf f.1) eqn:Hp; [|by rewrite !andb_false_r].
  by rewrite (part_pattern_not_hidden _ _ Hp).
Qed.

(** X29.  For a current step whose name has none of the characters that make
    a pattern: with a checkpoint file and no run file in it, [hardstart]
    raises the exception that names [tpr] and the step folder; with no
    checkpoint file it raises the one that names [cpt]; in both cases the
    directory tree is as before. *)
Theorem hardstart_stops_without_artifact
    (e : henv) (fs : tree) (d : string * node) (paths : json) :
  os_path_isfile "state.json" fs = false →
  current_step fs = Some d → has_magic d.1 = false →
  gmx_get_paths e = Some paths →
  ((∃ c, part_candidate "cpt" (listdir d.1 fs) c) →
   (∀ t, ¬ part_candidate "tpr" (listdir d.1 fs) t) →
   hardstart e fs
   = (Raises (Error ("cannot find a tpr file in " +:+ path_join d.1 "")), fs)) ∧
  ((∀ c, ¬ part_candidate "cpt" (listdir d.1 fs) c) →
   hardstart e fs
   = (Raises (Error ("cannot find a cpt file in " +:+ path_join d.1 "")), fs)).
Proof.
  intros Hfile Hd Hm Hp.
  pose proof (last_part_files "cpt" (listdir d.1 fs)) as Hc.
  pose proof (last_part_files "tpr" (listdir d.1 fs)) as Ht.
  rewrite hardstart_run, Hfile, Hd, Hp, (glob_entries_plain e _ _ Hm).
  destruct (last (part_files "cpt" _)) as [cpo|];
    destruct (last (part_files "tpr" _)) as [s|].
  - destruct Hc as [Hc _]. destruct Ht as [Ht _]. split.
    + intros _ Hno. destruct (Hno _ Ht).
    + intros Hno. destruct (Hno _ Hc).
  - destruct Hc as [Hc _]. split; [done|].
    intros Hno. destruct (Hno _ Hc).
  - split; [|done]. intros [c Hc']. destruct (Hc _ Hc').
  - split; [|done]. intros [c Hc']. destruct (Hc _ Hc').
Qed.

(** X29 on a step folder with a checkpoint and no run file. *)
Lemma hardstart_stops_without_artifact_witness :
  hardstart sample_henv no_tpr_tree
  = (Raises (Error "cannot find a tpr file in s003-run/"), no_tpr_tree).
Proof.
  apply (hardstart_stops_without_artifact sample_henv no_tpr_tree
           ("s003-run", Dir 400 [("md.part0003.cpt", 300); ("md.log", 310)])
           sample_paths); [reflexivity | reflexivity | reflexivity | reflexivity | |].
  - exists ("md.part0003.cpt", 300). split; [|split; reflexivity].
    apply list_elem_of_In. cbn. tauto.
  - intros t (Hin & H1 & H2). apply list_elem_of_In in Hin. cbn in Hin.
    destruct Hin as [<- | [<- | []]]; discriminate.
Defined.

(** X30.  For a current step whose name has none of the characters that make
    a pattern and that holds continuation files of both kinds, [hardstart]
    returns and the written document has one history entry, the call
    [mdrun]; its [-cpo] flag is the checkpoint file modified last, and of
    those modified at that time the one listed last, and its [-s] flag is the
    run file chosen in the same way. *)
Theorem hardstart_records_latest_files
    (e : henv) (fs : tree) (d : string * node) (paths : json) :
  let found suf :=
    filter (λ f, Is_true (ends_with ("." +:+ suf) f.1 && part_pattern suf f.1))
           (listdir d.1 fs) in
  lookup_node "state.json" fs = None →
  current_step fs = Some d → has_magic d.1 = false →
  gmx_get_paths e = Some paths →
  found "cpt" ≠ [] → found "tpr" ≠ [] →
  ∃ cpo s doc,
    (∃ pre post, found "cpt" = pre ++ cpo :: post ∧
       Forall (λ f, f.2 ≤ cpo.2) pre ∧ Forall (λ f, f.2 < cpo.2) post) ∧
    (∃ pre post, found "tpr" = pre ++ s :: post ∧
       Forall (λ f, f.2 ≤ s.2) pre ∧ Forall (λ f, f.2 < s.2) post) ∧
    hardstart e fs
    = (Returns tt, fs ++ [("state.json", File (clock e) (JsonObject doc))]) ∧
    doc !! "history_gmx"
    = Some (JArr [JObj [("call", JStr "mdrun");
                        ("flags", JObj [("-cpo", JStr cpo.1); ("-s", JStr s.1)])]]).
Proof.
  intros found Hnone Hd Hm Hp Hc Ht. subst found. cbv beta in *.
  rewrite <- !(part_listing "cpt"), <- ?(part_listing "tpr") in *.
  rewrite hardstart_run, (lookup_node_isfile _ _ Hnone), Hd, Hp,
    (glob_entries_plain e _ _ Hm).
  destruct (last (part_files "cpt" _)) as [cpo|] eqn:Hcpo;
    [|by apply last_sorted_none in Hcpo].
  destruct (last (part_files "tpr" _)) as [s|] eqn:Hs;
    [|by apply last_sorted_none in Hs].
  exists cpo, s, (fresh_state (path_join d.1 "") paths cpo.1 s.1).
  split; [by apply (last_sorted_stable snd)|].
  split; [by apply (last_sorted_stable snd)|].
  unfold open_and_write. rewrite write_file_new by done. split; [done|].
  unfold fresh_state, synthetic_call.
  by rewrite !lookup_insert_ne, lookup_singleton_eq by done.
Qed.

(** X30 on the scenario: [md.part0002.cpt] older, [md.part0003.cpt] newer, one
    run file. *)
Lemma hardstart_records_latest_files_witness :
  ∃ cpo s doc,
    (∃ pre post,
       [("md.part0002.cpt", 100); ("md.part0003.cpt", 300)] = pre ++ cpo :: post ∧
       Forall (λ f, f.2 ≤ cpo.2) pre ∧ Forall (λ f, f.2 < cpo.2) post) ∧
    (∃ pre post, [("md.part0003.tpr", 200)] = pre ++ s :: post ∧
       Forall (λ f, f.2 ≤ s.2) pre ∧ Forall (λ f, f.2 < s.2) post) ∧
    hardstart sample_henv s003_tree
    = (Returns tt, s003_tree ++ [("state.json", File 500 (JsonObject doc))]) ∧
    doc !! "history_gmx"
    = Some (JArr [JObj [("call", JStr "mdrun");
                        ("flags", JObj [("-cpo", JStr cpo.1); ("-s", JStr s.1)])]]).
Proof.
  apply (hardstart_records_latest_files sample_henv s003_tree
           ("s003-run", Dir 400 [("md.part0002.cpt", 100); ("md.part0003.cpt", 300);
                                 ("md.part0003.tpr", 200); ("md.log", 310)])
           sample_paths);
    [reflexivity | reflexivity | reflexivity | reflexivity | discriminate | discriminate].
Defined.

(** ** Keys that do not occur, and keys that occur often *)

Lemma sub_scan_absent_any (pat repl : string) (left : option nat) (s : string) :
  pat ≠ "" →
  no_match_in pat (String.length s) s = true →
  sub_scan pat repl left 0 s = s.
Proof.
  intros Hpat. induction s as [|c s IH]; intros Hno.
  - by destruct pat.
  - cbn [String.length no_match_in] in Hno. apply andb_prop in Hno as [Hp Hno].
    apply negb_true_iff in Hp. cbn [sub_scan]. rewrite Hp.
    destruct left as [[|n]|]; [done| |]; by rewrite IH.
Qed.

(** X23.  For literal keys and values without backslash, a header in which no
    key of the table occurs comes out of both passes as it went in. *)
Theorem passes_keep_text_without_keys (table : list (string * tokval)) (head : string) :
  (∀ kv, kv ∈ table →
         plain kv.1 = true ∧ kv.1 ≠ "" ∧ no_backslash (str kv.2) = true ∧
         no_match_in (upper kv.1) (String.length head) head = true) →
  header_pass table head = head ∧ settings_pass table head = head.
Proof.
  unfold header_pass, settings_pass.
  induction table as [|[k v] table IH]; intros Hall; [done|].
  destruct (Hall (k, v)) as (_ & Hk & _ & Hno); [left|]. cbn [fst snd] in *.
  assert (Hu : upper k ≠ "") by (intros Hu; by apply upper_empty in Hu).
  cbn [fold_left fst snd]. unfold re_sub. cbn [re_M].
  rewrite !sub_scan_absent_any by done.
  apply IH. intros kv Hkv. apply Hall. by right.
Qed.

(** X23 on a header that names neither key. *)
Lemma passes_keep_text_without_keys_witness :
  header_pass [("nprocs", TInt 64); ("walltime", TStr "24:00:00")] "#PBS -q QUEUE"
  = "#PBS -q QUEUE" ∧
  settings_pass [("nprocs", TInt 64); ("walltime", TStr "24:00:00")] "#PBS -q QUEUE"
  = "#PBS -q QUEUE".
Proof.
  apply passes_keep_text_without_keys.
  intros kv Hkv. apply list_elem_of_In in Hkv. cbn in Hkv.
  destruct Hkv as [<- | [<- | []]];
    (split; [reflexivity | split; [discriminate | split; reflexivity]]).
Defined.

(** X24.  For a literal key with at most eight matches and a value without
    backslash, the pass of line 412 and the pass of line 356 give the same
    text. *)
Theorem settings_pass_agrees_up_to_eight (k : string) (v : tokval) (head : string) :
  plain k = true → k ≠ "" → no_backslash (str v) = true →
  (occurrences (upper k) 0 head ≤ 8)%nat →
  settings_pass [(k, v)] head = header_pass [(k, v)] head.
Proof.
  intros _ Hk _ Hn. unfold settings_pass, header_pass. cbn [fold_left fst snd].
  unfold re_sub. cbn [re_M]. apply sub_scan_enough; [|done].
  intros Hu. by apply upper_empty in Hu.
Qed.

(** X24 on a header with two matches of the key. *)
Lemma settings_pass_agrees_up_to_eight_witness :
  settings_pass [("nprocs", TInt 64)] "NPROCS=NPROCS_PLACEHOLDER"
  = header_pass [("nprocs", TInt 64)] "NPROCS=NPROCS_PLACEHOLDER".
Proof.
  apply settings_pass_agrees_up_to_eight; [reflexivity | discriminate | reflexivity |].
  vm_compute. lia.
Defined.

(** ** The settings of the continuation script *)

Lemma dict_get_set (k k' : string) (v : tokval) (d : list (string * tokval)) :
  dict_get k' (dict_set k v d) = if String.eqb k' k then Some v else dict_get k' d.
Proof.
  induction d as [|[k0 v0] d IH]; cbn [dict_set dict_get].
  - by destruct (String.eqb k' k).
  - destruct (String.eqb k k0) eqn:Hk; cbn [dict_get].
    + apply String.eqb_eq in Hk as ->. by destruct (String.eqb k' k0).
    + rewrite IH. destruct (String.eqb k' k0) eqn:Hk'; [|done].
      apply String.eqb_eq in Hk' as ->. rewrite String.eqb_sym in Hk. by rewrite Hk.
Qed.

(** A key of the machine configuration moves into the settings. *)
Lemma carry_get (mc : list (string * tokval)) (keys : list string) (k : string)
    (st : list (string * tokval)) :
  dict_get k (fold_left (λ st key, match dict_get key mc with
                                   | Some v => dict_set key v st
                                   | None => st
                                   end) keys st)
  = if bool_decide (k ∈ keys)
    then match dict_get k mc with Some v => Some v | None => dict_get k st end
    else dict_get k st.
Proof.
  revert st. induction keys as [|key keys IH]; intros st; cbn [fold_left]; [done|].
  rewrite IH. destruct (decide (k = key)) as [->|Hne].
  - rewrite (bool_decide_eq_true_2 (key ∈ key :: keys)) by left.
    destruct (dict_get key mc) as [v|] eqn:Hv.
    + rewrite dict_get_set, String.eqb_refl. by destruct (bool_decide _).
    + by destruct (bool_decide _).
  - assert (Hdec : bool_decide (k ∈ key :: keys) = bool_decide (k ∈ keys)).
    { apply bool_decide_ext. rewrite elem_of_cons. tauto. }
    rewrite Hdec.
    assert (Hst : dict_get k (match dict_get key mc with
                              | Some v => dict_set key v st | None => st end)
                  = dict_get k st).
    { destruct (dict_get key mc); [|done]. rewrite dict_get_set.
      apply String.eqb_neq in Hne. by rewrite Hne. }
    by rewrite Hst.
Qed.

(** X25.  Whenever the settings are built, [nprocs] is the machine
    configuration's if it has one; otherwise [ppn] and [nnodes] are both
    there and [nprocs] is their product. *)
Theorem cluster_settings_process_count
    (mc gmxpaths : list (string * tokval)) (maxhours : tokval) (jobname : string)
    (st : list (string * tokval)) :
  cluster_settings mc gmxpaths maxhours jobname = inr st →
  match dict_get "nprocs" mc with
  | Some n => dict_get "nprocs" st = Some n
  | None => ∃ p q r, dict_get "ppn" mc = Some p ∧ dict_get "nnodes" mc = Some q ∧
                     py_mul p q = Some r ∧ dict_get "nprocs" st = Some r
  end.
Proof.
  unfold cluster_settings.
  set (gp := match dict_get "mdrun_command" mc with
             | Some c => dict_set "mdrun" c gmxpaths | None => gmxpaths end).
  destruct (dict_get "tpbconv" gp) as [tpbconv|]; [|done].
  destruct (dict_get "mdrun" gp) as [mdrun|]; [|done].
  destruct (dict_get "nprocs" mc) as [n|].
  - destruct (dict_get "modules" mc) as [[m|m]|]; [done| |]; intros [= <-];
      destruct (dict_get "until" mc), (dict_get "extend" mc); reflexivity.
  - destruct (dict_get "ppn" mc) as [p|]; [|done].
    destruct (dict_get "nnodes" mc) as [q|]; [|done].
    destruct (py_mul p q) as [r|] eqn:Hr; [|done].
    destruct (dict_get "modules" mc) as [[m|m]|]; [done| |]; intros [= <-];
      exists p, q, r; (split; [done|]; split; [done|]; split; [done|]);
      destruct (dict_get "until" mc), (dict_get "extend" mc); reflexivity.
Qed.

(** X25 with 16 per node on 4 nodes. *)
Lemma cluster_settings_process_count_witness :
  ∃ st, cluster_settings [("ppn", TInt 16); ("nnodes", TInt 4)]
          [("mdrun", TStr "gmx mdrun"); ("tpbconv", TStr "gmx convert-tpr")]
          (TInt 24) "job7" = inr st ∧
        ∃ p q r, dict_get "ppn" [("ppn", TInt 16); ("nnodes", TInt 4)] = Some p ∧
                 dict_get "nnodes" [("ppn", TInt 16); ("nnodes", TInt 4)] = Some q ∧
                 py_mul p q = Some r ∧ dict_get "nprocs" st = Some r.
Proof.
  eexists. split; [reflexivity|].
  exact (cluster_settings_process_count [("ppn", TInt 16); ("nnodes", TInt 4)]
           [("mdrun", TStr "gmx mdrun"); ("tpbconv", TStr "gmx convert-tpr")]
           (TInt 24) "job7" _ eq_refl).
Defined.

(** X26.  In the settings that come out, [mode] is there exactly with [until],
    [extend] and [until] are the configuration's, [mdrun] is the
    configuration's command if it has one, and the rest is as supplied. *)
Theorem cluster_settings_mode_and_mdrun
    (mc gmxpaths : list (string * tokval)) (maxhours : tokval) (jobname : string)
    (st : list (string * tokval)) :
  cluster_settings mc gmxpaths maxhours jobname = inr st →
  dict_get "mode" st
  = (if dict_get "until" mc is Some _ then Some (TStr "until") else None) ∧
  dict_get "until" st = dict_get "until" mc ∧
  dict_get "extend" st = dict_get "extend" mc ∧
  dict_get "mdrun" st
  = (if dict_get "mdrun_command" mc is Some c then Some c else dict_get "mdrun" gmxpaths) ∧
  dict_get "tpbconv" st = dict_get "tpbconv" gmxpaths ∧
  dict_get "maxhours" st = Some maxhours ∧
  dict_get "jobname" st = Some (TStr jobname).
Proof.
  unfold cluster_settings.
  set (gp := match dict_get "mdrun_command" mc with
             | Some c => dict_set "mdrun" c gmxpaths | None => gmxpaths end).
  assert (Hgp : dict_get "tpbconv" gp = dict_get "tpbconv" gmxpaths ∧
                dict_get "mdrun" gp
                = (if dict_get "mdrun_command" mc is Some c then Some c
                   else dict_get "mdrun" gmxpaths)).
  { subst gp. destruct (dict_get "mdrun_command" mc); [|done]. by rewrite !dict_get_set. }
  destruct Hgp as [Ht Hm]. rewrite <- Ht, <- Hm.
  destruct (dict_get "tpbconv" gp) as [tpbconv|]; [|done].
  destruct (dict_get "mdrun" gp) as [mdrun|]; [|done].
  match goal with |- match ?x with _ => _ end = _ → _ => destruct x as [x0|n] end; [done|].
  destruct (dict_get "modules" mc) as [[m|m]|]; [done| |]; intros [= <-].
  all: destruct (dict_get "until" mc) as [u|] eqn:Hu;
    rewrite ?dict_get_set, ?carry_get; cbn; rewrite ?Hu;
    destruct (dict_get "extend" mc) eqn:He; rewrite ?dict_get_set; cbn; done.
Qed.

(** X26 with [until] and an mdrun command configured. *)
Lemma cluster_settings_mode_and_mdrun_witness :
  ∃ st, cluster_settings [("ppn", TInt 16); ("nnodes", TInt 4); ("until", TInt 100);
                          ("mdrun_command", TStr "srun gmx mdrun")]
          [("mdrun", TStr "gmx mdrun"); ("tpbconv", TStr "gmx convert-tpr")]
          (TInt 24) "job7" = inr st ∧
        dict_get "mode" st = Some (TStr "until") ∧
        dict_get "mdrun" st = Some (TStr "srun gmx mdrun").
Proof.
  eexists. split; [reflexivity|].
  pose proof (cluster_settings_mode_and_mdrun
    [("ppn", TInt 16); ("nnodes", TInt 4); ("until", TInt 100);
     ("mdrun_command", TStr "srun gmx mdrun")]
    [("mdrun", TStr "gmx mdrun"); ("tpbconv", TStr "gmx convert-tpr")]
    (TInt 24) "job7" _ eq_refl) as (Hmode & _ & _ & Hmdrun & _).
  split; [exact Hmode | exact Hmdrun].
Defined.

(** ** The environment probe *)

Lemma probe_loop_run (environ : string → option string) (outgoing : string)
    (items : list (string * json)) (out : list string) :
  probe_loop environ outgoing items out
  = (Returns tt, out ++ replicate (length (filter (λ kv, Is_true (differs environ kv)) items))
                                  outgoing).
Proof.
  revert out. induction items as [|kv items IH]; intros out; cbn [probe_loop].
  - cbn. by rewrite app_nil_r.
  - rewrite run_bind. rewrite filter_cons.
    destruct (differs environ kv) eqn:Hd.
    + cbn [print_line modify]. rewrite IH.
      rewrite decide_True by exact I. cbn [length replicate]. by rewrite <- app_assoc.
    + rewrite run_ret, IH. by rewrite decide_False by (intros []).
Qed.

(** X27.  With the probe switched on, an activation command and variables to
    check, the probe prints its line once per variable that differs and
    exits with status 0. *)
Theorem env_probe_prints_per_variable
    (percent_s : json → string) (environ : string → option string)
    (conf : gmap string json) (probe : string) (env_cmd : json)
    (items : list (string * json)) (out : list string) :
  environ "ENV_PROBE" = Some probe → probe ≠ "" →
  conf !! "activate_env" = Some env_cmd → json_truthy env_cmd = true →
  conf !! "env_ready" = Some (JObj items) → items ≠ [] → NoDup items.*1 →
  env_probe percent_s environ (Some (JsonObject conf)) out
  = (Exits 0,
     out ++ replicate (length (filter (λ kv, Is_true (differs environ kv)) items))
                      ("environment: " +:+ percent_s env_cmd)).
Proof.
  intros Hp Hne Hcmd Ht Hready Hitems _. unfold env_probe. rewrite Hp.
  destruct probe as [|c probe]; [done|].
  rewrite run_bind, run_ret. rewrite Hcmd, Hready. cbn [default from_option id].
  rewrite Ht. destruct items as [|kv items]; [done|]. cbn [json_truthy negb andb].
  rewrite run_bind, probe_loop_run. reflexivity.
Qed.

(** ** The remaining instances *)

(** X1 on the uploaded job, for the key [here]. *)
Lemma upload_keeps_other_keys_witness :
  state (upload (sure_call 0 job7_remote) job7_world).2 !! "here"
  = state job7_world !! "here".
Proof. apply upload_keeps_other_keys; discriminate. Defined.

(** X2 on the uploaded job, for the key [upload_history]. *)
Lemma download_keeps_state_keys_witness :
  state (download (sure_call 0 job7_remote) job7_world).2 !! "upload_history"
  = state job7_world !! "upload_history".
Proof. apply download_keeps_state_keys; discriminate. Defined.

(** X3 on the history list of the uploaded job. *)
Lemma transfers_only_append_witness :
  (∃ ys, objs (upload (sure_call 0 job7_remote) job7_world).2 !! 0%nat
         = Some ([JObj job7_record] ++ ys)) ∧
  (∃ ys, objs (download (sure_call 0 job7_remote) job7_world).2 !! 0%nat
         = Some ([JObj job7_record] ++ ys)).
Proof. apply transfers_only_append. reflexivity. Defined.

(** X6 on an empty state, and on a call that lacks the checkpoint. *)
Lemma upload_stops_on_missing_input_witness :
  upload (sure_call 0 job7_remote)
    (World ∅ [] None 0 [])
  = (Raises (KeyError "here"),
     (serial_number (sure_call 0 job7_remote) (World ∅ [] None 0 [])).2) ∧
  upload missing_cpt_call job7_world
  = (Raises (Error "could not find necessary upload files from get_last_gmx_call"),
     (serial_number missing_cpt_call job7_world).2).
Proof.
  split.
  - apply (proj1 (upload_stops_on_missing_input (sure_call 0 job7_remote)
                    (World ∅ [] None 0 []))).
    reflexivity.
  - apply (proj2 (upload_stops_on_missing_input missing_cpt_call job7_world)
             "s01-run/" ("md.part0001.tpr", "md.part0001.cpt"));
      [reflexivity | reflexivity | right; reflexivity].
Defined.

(** X27 with three variables of which two differ. *)
Lemma env_probe_prints_per_variable_witness :
  env_probe sample_percent_s sample_environ (Some (JsonObject sample_conf)) []
  = (Exits 0, [] ++ replicate 2 "environment: source env/bin/activate").
Proof.
  apply (env_probe_prints_per_variable sample_percent_s sample_environ sample_conf "1"
           (JStr "source env/bin/activate")
           [("CONDA_PREFIX", JStr "/opt/conda"); ("GMXRC", JStr "/opt/gmx");
            ("VIRTUAL_ENV", JStr "env")] []);
    [reflexivity | discriminate | reflexivity | reflexivity | reflexivity | discriminate |].
  apply (bool_decide_unpack _). vm_compute. exact I.
Defined.
